(** * unity-input-patcher: the toggle engine of [unity_input_patcher.py]

    A shallow embedding of the comparator ([equal]), the direction resolver
    ([toggle_decision]), the field mutator ([toggle_legacy_axis_field]) and
    the orchestrator ([run]) of [src/unity_input_patcher.py], followed by the
    properties the specification states about them.

    Python values are a first-order datatype; floats are IEEE binary64 values
    in the style of [SpecFloat] (precision 53, maximal exponent 1024), so the
    comparator computes; exceptions are values of an error monad; the dicts of
    the axis list live in a store indexed by references, so that in-place
    mutation and sharing are explicit. *)

From Stdlib Require Import ZArith Bool List Ascii String DecimalString Lia.
From Stdlib Require Import Floats.SpecFloat.
From stdpp Require Import base list strings.

Set Warnings "-register-all".

Local Open Scope string_scope.
Local Open Scope Z_scope.

(** ** Python values *)

(** The values the JSON patch file and the type tree hold.  A [VDict] is an
    insertion-ordered association list with string keys, as [json.loads] and
    [read_typetree] build them.  Characters of a [string] stand for the code
    points below 256. *)
Inductive value : Type :=
| VNone
| VBool (b : bool)
| VInt (z : Z)
| VFloat (f : spec_float)
| VStr (s : string)
| VList (l : list value)
| VDict (kv : list (string * value)).

(** ** Exceptions *)

Inductive exn_class : Type :=
| IndexError | RuntimeError | FileNotFoundError | OverflowError
| TypeError | AttributeError | PermissionError.

(** An exception is its class and its message ([str(e)]). *)
Inductive result (A : Type) : Type :=
| Ok (a : A)
| Raise (c : exn_class) (msg : string).
Arguments Ok {A} a.
Arguments Raise {A} c msg.

Definition result_bind {A B} (r : result A) (k : A -> result B) : result B :=
  match r with
  | Ok a => k a
  | Raise c msg => Raise c msg
  end.

#[export] Instance result_ret : MRet result := fun _ a => Ok a.
#[export] Instance result_mbind : MBind result := fun _ _ k r => result_bind r k.

(** ** binary64 arithmetic *)

Module F64.
Definition prec : Z := 53.
Definition emax : Z := 1024.

Definition sub : spec_float -> spec_float -> spec_float := SFsub prec emax.
Definition div : spec_float -> spec_float -> spec_float := SFdiv prec emax.
Definition abs : spec_float -> spec_float := SFabs.
Definition leb : spec_float -> spec_float -> bool := SFleb.
Definition eqb : spec_float -> spec_float -> bool := SFeqb.

(** [math.isfinite] *)
Definition isfinite (f : spec_float) : bool :=
  match f with
  | S754_zero _ | S754_finite _ _ _ => true
  | S754_infinity _ | S754_nan => false
  end.

(** The integer [z] rounded to the nearest double, ties to even; an
    infinity when it is out of range. *)
Definition of_Z (z : Z) : spec_float := binary_normalize prec emax z 0 false.

(** Exact comparison of an integer with a double, as [int.__eq__] and
    [float.__eq__] do between the two types (no rounding of the integer). *)
Definition Z_eqb (z : Z) (f : spec_float) : bool :=
  match f with
  | S754_zero _ => z =? 0
  | S754_finite s m e =>
      let mz := cond_Zopp s (Zpos m) in
      if 0 <=? e then z =? mz * 2 ^ e else z * 2 ^ (- e) =? mz
  | S754_infinity _ | S754_nan => false
  end.

(** Truncation toward zero of a finite double ([int(x)] on a float). *)
Definition trunc (f : spec_float) : option Z :=
  match f with
  | S754_zero _ => Some 0
  | S754_finite s m e =>
      Some (cond_Zopp s (if 0 <=? e then Zpos m * 2 ^ e else Zpos m / 2 ^ (- e)))
  | S754_infinity _ | S754_nan => None
  end.

Definition zero : spec_float := S754_zero false.
Definition one : spec_float := of_Z 1.
Definition inf : spec_float := S754_infinity false.
Definition nan : spec_float := S754_nan.
End F64.

(** [FLOAT_EPS = 1e-6]: the double nearest to 10^-6. *)
Definition FLOAT_EPS : spec_float := S754_finite false 4722366482869645 (-72).

(** ** Builtins on values *)

(** [float(x)] for a number: an integer too large for a double raises
    [OverflowError].  The source applies it to an [int] or a [float] only;
    the last branch stands for the other types and is never reached. *)
Definition py_float (v : value) : result spec_float :=
  match v with
  | VFloat f => Ok f
  | VInt z =>
      match F64.of_Z z with
      | S754_infinity _ => Raise OverflowError "int too large to convert to float"
      | f => Ok f
      end
  | VBool b => Ok (F64.of_Z (if b then 1 else 0))
  | _ => Raise TypeError "float() argument must be a string or a real number"
  end.

(** [isinstance(v, (int, float)) and not isinstance(v, bool)] *)
Definition is_number (v : value) : bool :=
  match v with
  | VInt _ | VFloat _ => true
  | _ => false
  end.

Definition Z_of_bool (b : bool) : Z := if b then 1 else 0.

Fixpoint assoc (k : string) (kv : list (string * value)) : option value :=
  match kv with
  | [] => None
  | (k', v) :: kv' => if String.eqb k k' then Some v else assoc k kv'
  end.

(** [a == b].  [bool] is a subclass of [int], so [True == 1]; an integer and
    a float compare exactly; a NaN equals nothing; lists compare element by
    element and dicts key by key, whatever the order of the keys.  The
    program compares a live value with a value of the entry at hand, two
    distinct objects, so the shortcut that the comparison of containers
    takes on identical elements is not modelled. *)
Fixpoint py_eq (a b : value) {struct a} : bool :=
  match a with
  | VNone => match b with VNone => true | _ => false end
  | VBool x =>
      match b with
      | VBool y => Bool.eqb x y
      | VInt z => Z_of_bool x =? z
      | VFloat f => F64.Z_eqb (Z_of_bool x) f
      | _ => false
      end
  | VInt x =>
      match b with
      | VBool y => x =? Z_of_bool y
      | VInt z => x =? z
      | VFloat f => F64.Z_eqb x f
      | _ => false
      end
  | VFloat x =>
      match b with
      | VBool y => F64.Z_eqb (Z_of_bool y) x
      | VInt z => F64.Z_eqb z x
      | VFloat f => F64.eqb x f
      | _ => false
      end
  | VStr s => match b with VStr t => String.eqb s t | _ => false end
  | VList l =>
      match b with
      | VList m =>
          (fix all2 (l m : list value) {struct l} : bool :=
             match l, m with
             | [], [] => true
             | x :: l', y :: m' => py_eq x y && all2 l' m'
             | _, _ => false
             end) l m
      | _ => false
      end
  | VDict kv =>
      match b with
      | VDict kw =>
          (length kv =? length kw)%nat &&
          (fix each (kv : list (string * value)) {struct kv} : bool :=
             match kv with
             | [] => true
             | (k, v) :: kv' =>
                 match assoc k kw with
                 | Some w => py_eq v w
                 | None => false
                 end && each kv'
             end) kv
      | _ => false
      end
  end.

(** ** The comparator (lines 104-107) *)

(** [and] evaluates its right operand only when the left one is true, so a
    conversion that raises is reached only after the tests before it held. *)
Definition equal (a b : value) : result bool :=
  if is_number a && is_number b then
    fa ← py_float a;
    if F64.isfinite fa then
      fb ← py_float b;
      if F64.isfinite fb then
        Ok (F64.leb (F64.abs (F64.sub fa fb)) FLOAT_EPS)
      else Ok false
    else Ok false
  else Ok (py_eq a b).

(** ** The direction resolver (lines 111-116) *)

Definition toggle_decision (current original patched : value)
  : result (value * string) :=
  eq_o ← equal current original;
  if eq_o : bool then Ok (patched, "applied")
  else
    eq_p ← equal current patched;
    if eq_p : bool then Ok (original, "reverted")
    else Ok (VNone, "unknown").

(** ** Dict objects *)

(** [k in d] *)
Definition dict_mem (k : string) (kv : list (string * value)) : bool :=
  match assoc k kv with Some _ => true | None => false end.

(** [d.get(k, default)] *)
Definition dict_get (k : string) (default : value) (kv : list (string * value))
  : value :=
  match assoc k kv with Some v => v | None => default end.

(** [d[k] = v]: the entry of an existing key is replaced where it stands, a
    new key is added at the end. *)
Fixpoint dict_set (k : string) (v : value) (kv : list (string * value))
  : list (string * value) :=
  match kv with
  | [] => [(k, v)]
  | (k', v') :: kv' =>
      if String.eqb k k' then (k', v) :: kv' else (k', v') :: dict_set k v kv'
  end.

(** [type(v).__name__] *)
Definition type_name (v : value) : string :=
  match v with
  | VNone => "NoneType"
  | VBool _ => "bool"
  | VInt _ => "int"
  | VFloat _ => "float"
  | VStr _ => "str"
  | VList _ => "list"
  | VDict _ => "dict"
  end.

(** ** State and exceptions *)

(** Code that reads and writes a state [S] and may raise; the state at the
    time of the exception is kept. *)
Definition ST (S A : Type) : Type := S -> S * result A.

#[export] Instance ST_ret {S} : MRet (ST S) := fun _ a σ => (σ, Ok a).
#[export] Instance ST_bind {S} : MBind (ST S) := fun _ _ k m σ =>
  match m σ with
  | (σ', Ok a) => k a σ'
  | (σ', Raise c msg) => (σ', Raise c msg)
  end.

Definition raise {S A} (c : exn_class) (msg : string) : ST S A :=
  fun σ => (σ, Raise c msg).
Definition lift {S A} (r : result A) : ST S A := fun σ => (σ, r).

(** ** The store of mutable objects *)

(** The elements of the axis list are objects: the list holds references
    into a store.  Two positions of the list may hold the same reference. *)
Definition loc : Type := nat.
Definition store : Type := loc -> value.
Abbreviation M := (ST store).

Definition store_set (l : loc) (v : value) (σ : store) : store :=
  fun l' => if Nat.eqb l' l then v else σ l'.
Definition load (l : loc) : M value := fun σ => (σ, Ok (σ l)).
Definition write (l : loc) (v : value) : M unit :=
  fun σ => (store_set l v σ, Ok tt).

(** [o.get]: only a dict has the method. *)
Definition as_dict (v : value) : result (list (string * value)) :=
  match v with
  | VDict kv => Ok kv
  | _ => Raise AttributeError
           ("'" ++ type_name v ++ "' object has no attribute 'get'")
  end.

(** ** More builtins *)

(** Truth value of an object. *)
Definition truthy (v : value) : bool :=
  match v with
  | VNone => false
  | VBool b => b
  | VInt z => negb (z =? 0)
  | VFloat (S754_zero _) => false
  | VFloat _ => true
  | VStr s => negb (String.eqb s "")
  | VList l => match l with [] => false | _ => true end
  | VDict kv => match kv with [] => false | _ => true end
  end.

(** Truth value of an optional string: [None] and the empty string are
    false. *)
Definition truthy_name (axis_name : option string) : bool :=
  match axis_name with
  | Some s => truthy (VStr s)
  | None => false
  end.

(** [x or y] *)
Definition py_or (x y : value) : value := if truthy x then x else y.

(** The white space of [str.strip()] among the code points below 256:
    tab to carriage return, the four separators 28 to 31, the space, NEL and
    the no-break space. *)
Definition py_isspace (c : ascii) : bool :=
  let n := nat_of_ascii c in
  ((9 <=? n) && (n <=? 13) || (28 <=? n) && (n <=? 32)
   || (n =? 133) || (n =? 160))%nat.

Fixpoint lstrip (s : string) : string :=
  match s with
  | String c s' => if py_isspace c then lstrip s' else s
  | EmptyString => EmptyString
  end.

(** [s.strip()] *)
Definition py_strip (s : string) : string :=
  String.rev (lstrip (String.rev (lstrip s))).

(** [len(v)] *)
Definition py_len (v : value) : result Z :=
  match v with
  | VStr s => Ok (Z.of_nat (String.length s))
  | VList l => Ok (Z.of_nat (length l))
  | VDict kv => Ok (Z.of_nat (length kv))
  | _ => Raise TypeError ("object of type '" ++ type_name v ++ "' has no len()")
  end.

(** What the interpreter provides and the source only calls: [str(x)],
    [repr(x)] and the parsing of an integer literal by [int(s)]. *)
Class Builtins : Type := {
  py_str : value -> string;
  py_repr : value -> string;
  int_of_str : string -> option Z;
}.

(** What the host provides: [pathlib], the file system, [json] and the
    UnityPy object graph, each through the interface the source uses.
    [read_json f p] is [json.loads(p.read_text(encoding="utf-8"))] and
    [obj_type_name o] is [getattr(o.type, "name", None)].  [read_tree]
    (lines 78-88), [write_tree] (lines 92-100) and the serialisation of
    [save_in_place] (lines 156-162) probe the library for one of several
    method names; they stand here for their outcome: the tree, the graph
    with the tree written into the object, the bytes, or the exception of
    the probing or of the library. *)
Class Host : Type := {
  path : Type;
  path_eq_dec :: EqDecision path;
  path_parent : path -> path;
  path_join : path -> string -> path;
  path_stem : path -> string;
  path_str : path -> string;
  bytes : Type;
  fs : Type;
  fs_exists : fs -> path -> bool;
  fs_is_file : fs -> path -> bool;
  read_json : fs -> path -> result value;
  fs_write_bytes : fs -> path -> bytes -> fs * result unit;
  env : Type;
  uobject : Type;
  UnityPy_load : fs -> string -> result env;
  env_objects : env -> list uobject;
  obj_type_name : uobject -> value;
  read_tree : uobject -> result value;
  write_tree : env -> uobject -> value -> result env;
  env_save : env -> result bytes;
}.

Section Patcher.
Context `{Builtins}.

(** [int(x)]; [None] when it raises ([TypeError], [ValueError] or
    [OverflowError]): the one caller catches every exception alike.  A
    float is truncated toward zero, a bool is 0 or 1. *)
Definition py_int (v : value) : option Z :=
  match v with
  | VInt z => Some z
  | VBool b => Some (Z_of_bool b)
  | VFloat f => F64.trunc f
  | VStr s => int_of_str s
  | VNone | VList _ | VDict _ => None
  end.

Definition str_of_Z (z : Z) : string := py_str (VInt z).
Definition repr_of_name (axis_name : option string) : string :=
  match axis_name with
  | Some s => py_repr (VStr s)
  | None => py_repr VNone
  end.

(** ** The field mutator (lines 120-151) *)

(** The change-log line (line 149) and the check label (line 150). *)
Definition log_line (axis_index : Z) (name : value) (field : string)
    (cur new : value) : string :=
  "axis[" ++ str_of_Z axis_index ++ "] " ++ py_repr name ++ "."
  ++ field ++ ": " ++ py_repr cur ++ " -> " ++ py_repr new.

Definition check_label (name : value) (axis_name : option string) : string :=
  if truthy_name axis_name
  then "axis_name_ok (" ++ py_repr name ++ ")"
  else "axis_name_skipped".

Definition toggle_legacy_axis_field
    (axes : list loc) (axis_index : Z) (field : string)
    (original patched : value) (axis_name : option string)
  : M (string * string * string) :=
  if (axis_index <? 0) || (axis_index >=? Z.of_nat (length axes)) then
    raise IndexError
      ("Axis index out of range: " ++ str_of_Z axis_index
       ++ " (axes=" ++ str_of_Z (Z.of_nat (length axes)) ++ ")")
  else
    let l := axes !!! Z.to_nat axis_index in
    ax ← load l;
    kv ← lift (as_dict ax);
    let name := dict_get "m_Name" (VStr "") kv in
    if truthy_name axis_name && negb (py_eq name (VStr (default "" axis_name)))
    then
      raise RuntimeError
        ("Axis name mismatch at index " ++ str_of_Z axis_index
         ++ ": expected " ++ repr_of_name axis_name
         ++ ", found " ++ py_repr name)
    else if negb (dict_mem field kv) then
      raise RuntimeError
        ("Field " ++ py_repr (VStr field) ++ " not present on axis["
         ++ str_of_Z axis_index ++ "] (name=" ++ py_repr name ++ ")")
    else
      let cur := dict_get field VNone kv in
      '(new, mode) ← lift (toggle_decision cur original patched);
      match new with
      | VNone =>
          raise RuntimeError
            ("Unknown state for axis[" ++ str_of_Z axis_index ++ "] "
             ++ py_repr name ++ "." ++ field ++ ": current=" ++ py_repr cur
             ++ ", expected " ++ py_repr original ++ " or " ++ py_repr patched)
      | _ =>
          write l (VDict (dict_set field new kv));;
          let line := log_line axis_index name field cur new in
          let check := check_label name axis_name in
          mret (mode, line, check)
      end.

(** ** One toggle entry (lines 217-240) *)

(** [req] (lines 46-49) *)
Definition req (d : list (string * value)) (k : string) : result value :=
  match assoc k d with
  | Some v => Ok v
  | None =>
      Raise RuntimeError
        ("Toggle entry missing required key: " ++ py_repr (VStr k))
  end.

(** Line 231: the name is kept when it is a string with a character that is
    not white space, and dropped otherwise. *)
Definition axis_name_of (v : value) : option string :=
  match v with
  | VStr s => if truthy (VStr (py_strip s)) then Some s else None
  | _ => None
  end.

(** Lines 223-226: any exception of [req] or [int] becomes the one error. *)
Definition non_integer_axis_msg (d : list (string * value)) : string :=
  "Toggle entry has non-integer 'axis': " ++ py_repr (dict_get "axis" VNone d).

Definition axis_of (d : list (string * value)) : result Z :=
  match (match req d "axis" with Ok v => py_int v | Raise _ _ => None end) with
  | Some axis_index => Ok axis_index
  | None => Raise RuntimeError (non_integer_axis_msg d)
  end.

Definition toggle_entry (axes : list loc) (t : value)
  : M (string * string * string) :=
  match t with
  | VDict d =>
      if negb (py_eq (dict_get "type" VNone d) (VStr "legacy_axis_field")) then
        raise RuntimeError
          ("Unsupported toggle type: " ++ py_repr (dict_get "type" VNone d))
      else
        axis_index ← lift (axis_of d);
        field ← lift (req d "field");
        original ← lift (req d "original");
        patched ← lift (req d "patched");
        let axis_name := axis_name_of (dict_get "axis_name" VNone d) in
        toggle_legacy_axis_field axes axis_index (py_str field)
          original patched axis_name
  | _ => raise RuntimeError ("Bad toggle entry (not object): " ++ py_repr t)
  end.

(** ** The loop over the entries (lines 212-248) *)

Definition mixed_msg : string :=
  "Mixed apply/revert across entries (patch values don't match current file consistently)".

Fixpoint toggle_loop (axes : list loc) (toggles : list value)
    (mode_seen : option string) (checks logs : list string)
  : M (option string * list string * list string) :=
  match toggles with
  | [] => mret (mode_seen, checks, logs)
  | t :: rest =>
      '(mode, line, check) ← toggle_entry axes t;
      match mode_seen with
      | None =>
          toggle_loop axes rest (Some mode) (checks ++ [check]) (logs ++ [line])
      | Some seen =>
          if negb (String.eqb seen mode) then raise RuntimeError mixed_msg
          else
            toggle_loop axes rest (Some seen) (checks ++ [check])
              (logs ++ [line])
      end
  end.

End Patcher.

(** ** The orchestrator (lines 167-262) *)

Section Run.
Context `{Builtins} `{Host}.

(** The world a run acts on: the file system and the lines printed. *)
Record world : Type := { w_fs : fs; w_out : list string }.
Abbreviation W := (ST world).

(** [print(line)] *)
Definition printed (w : world) (line : string) : world :=
  {| w_fs := w_fs w; w_out := w_out w ++ [line] |}.
Definition print (line : string) : W unit := fun w => (printed w line, Ok tt).

Definition tag : string := "[UnityInputPatcher] ".
Definition dquote : string := String (ascii_of_nat 34) EmptyString.

(** [q] (lines 34-35) *)
Definition q (p : path) : string := dquote ++ path_str p ++ dquote.

(** [load_json] (lines 18-19) *)
Definition load_json (p : path) : W value :=
  fun w => (w, read_json (w_fs w) p).

(** [verify_root_contains] (lines 39-42) *)
Definition missing_items (f : fs) (root : path) (items : list string)
  : list string :=
  List.filter (fun x => negb (fs_exists f (path_join root x))) items.

Definition root_check_msg (root : path) (missing : list string) : string :=
  "Root sanity check failed at " ++ q root
  ++ " (missing: " ++ String.concat ", " missing ++ ")".

Definition verify_root_contains (root : path) (items : list string) : W unit :=
  fun w =>
    match missing_items (w_fs w) root items with
    | [] => (w, Ok tt)
    | missing => (w, Raise RuntimeError (root_check_msg root missing))
    end.

(** [target_file] (lines 62-66) *)
Definition target_file (root : path) (rel : string) : W path :=
  fun w =>
    let p := path_join root rel in
    if negb (fs_exists (w_fs w) p) || negb (fs_is_file (w_fs w) p)
    then (w, Raise FileNotFoundError ("Target file not found: " ++ q p))
    else (w, Ok p).

(** [find_obj] (lines 70-74) *)
Definition find_obj (e : env) (type_name : string) : result uobject :=
  match
    List.find (fun o => py_eq (obj_type_name o) (VStr type_name)) (env_objects e)
  with
  | Some o => Ok o
  | None =>
      Raise RuntimeError
        (type_name
         ++ " not found (wrong file / Unity version / not legacy InputManager?)")
  end.

(** [save_in_place] (lines 155-163) *)
Definition write_bytes (out_path : path) (data : bytes) : W unit :=
  fun w =>
    let '(f, r) := fs_write_bytes (w_fs w) out_path data in
    ({| w_fs := f; w_out := w_out w |}, r).

Definition save_in_place (e : env) (out_path : path) : W unit :=
  data ← lift (env_save e);
  write_bytes out_path data.

(** The line printed before the parent is tried (line 180). *)
Definition retry_line (game_root : path) : string :=
  tag ++ "Root check failed at " ++ q game_root
  ++ "; trying parent " ++ q (path_parent game_root).

(** Lines 172-184: the root the run goes on with.  [except RuntimeError]
    catches the failure of the first check only. *)
Definition check_root (game_root : path) (patch : list (string * value))
  : W path :=
  match dict_get "root_contains" (VList []) patch with
  | VList (x :: xs) =>
      let items := map py_str (x :: xs) in
      fun w =>
        match verify_root_contains game_root items w with
        | (w1, Ok _) => (w1, Ok game_root)
        | (w1, Raise RuntimeError msg) =>
            let parent := path_parent game_root in
            if decide (parent <> game_root) then
              (print (retry_line game_root);;
               verify_root_contains parent items;;
               mret parent) w1
            else (w1, Raise RuntimeError msg)
        | (w1, Raise c msg) => (w1, Raise c msg)
        end
  | _ => mret game_root
  end.

Definition print_all (prefix : string) (lines : list string) : W unit :=
  fun w =>
    ({| w_fs := w_fs w; w_out := w_out w ++ map (fun l => prefix ++ l) lines |},
     Ok tt).

(** Lines 186-210: from the root to the axis list. *)
Definition prepare (game_root : path) (patch : list (string * value))
    (patch_id patch_name : string)
  : W (path * list value * env * uobject * list (string * value) * list value) :=
  rel ← match dict_get "file" VNone patch with
        | VStr rel =>
            if truthy (VStr (py_strip rel)) then mret rel
            else raise RuntimeError "patch.json missing required string: 'file'"
        | _ => raise RuntimeError "patch.json missing required string: 'file'"
        end;
  file_path ← target_file game_root rel;
  toggles ← match dict_get "toggle" VNone patch with
            | VList (t :: ts) => mret (t :: ts)
            | _ =>
                raise RuntimeError
                  "patch.json missing required non-empty list: 'toggle'"
            end;
  print (tag ++ "Loaded patch: " ++ patch_name ++ " (" ++ patch_id ++ ")");;
  print (tag ++ "Root: " ++ q game_root);;
  print (tag ++ "File: " ++ q file_path);;
  (let root_contains := dict_get "root_contains" (VList []) patch in
   if truthy root_contains then
     count ← lift (py_len root_contains);
     let label := if count =? 1 then "item" else "items" in
     print (tag ++ "Root check: OK (" ++ str_of_Z count ++ " required "
            ++ label ++ ")")
   else mret tt);;
  e ← (fun w => (w, UnityPy_load (w_fs w) (path_str file_path)));
  im ← lift (find_obj e "InputManager");
  dv ← lift (read_tree im);
  d ← lift (as_dict dv);
  match dict_get "m_Axes" VNone d with
  | VList elems => mret (file_path, toggles, e, im, d, elems)
  | _ => raise RuntimeError "InputManager.m_Axes missing or unexpected format"
  end.

(** Lines 250-262: write the tree back, overwrite the file, report. *)
Definition commit (file_path : path) (e : env) (im : uobject)
    (d : list (string * value)) (axes : list value)
    (mode_seen : option string) (checks logs : list string) : W unit :=
  e' ← lift (write_tree e im (VDict (dict_set "m_Axes" (VList axes) d)));
  save_in_place e' file_path;;
  print_all (tag ++ "Check: ") checks;;
  print_all (tag ++ "Patched: ") logs;;
  match mode_seen with
  | Some "applied" => print (tag ++ "Patch applied OK.")
  | _ => print (tag ++ "Patch reverted OK.")
  end.

(** The elements of the axis list that the library built are fresh objects:
    element [i] is the object at reference [i]. *)
Definition alloc (elems : list value) : list loc * store :=
  (seq 0 (length elems), fun l => nth l elems VNone).

(** The run once the root is settled (lines 186-262). *)
Definition run_at (game_root : path) (patch : list (string * value))
    (patch_id patch_name : string) : W unit :=
  '(file_path, toggles, e, im, d, elems) ←
    prepare game_root patch patch_id patch_name;
  let '(axes, σ) := alloc elems in
  match toggle_loop axes toggles None [] [] σ with
  | (σ', Ok (mode_seen, checks, logs)) =>
      commit file_path e im d (map σ' axes) mode_seen checks logs
  | (_, Raise c msg) => raise c msg
  end.

(** Lines 169-170 *)
Definition patch_id_of (patch : list (string * value)) (patch_path : path)
  : string :=
  py_str (py_or (dict_get "id" VNone patch) (VStr (path_stem patch_path))).

Definition patch_name_of (patch : list (string * value)) (patch_path : path)
  : string :=
  py_str (py_or (dict_get "name" VNone patch)
            (VStr (patch_id_of patch patch_path))).

Definition run (game_root patch_path : path) : W unit :=
  pv ← load_json patch_path;
  patch ← lift (as_dict pv);
  let patch_id := patch_id_of patch patch_path in
  let patch_name := patch_name_of patch patch_path in
  game_root ← check_root game_root patch;
  run_at game_root patch patch_id patch_name.

End Run.

Abbreviation W := (ST world).

(** ** The command line (lines 12-13, 23-30, 53-58, 265-292) *)

Definition VERSION : string := "0.1.0".
Definition PATCH_DEFAULT : string := "patch.json".

(** What the process provides to [main], besides the host: [Path(s)], the
    join of two paths, [resolve()], [is_absolute()], the working directory,
    [Path(__file__)], and the [filename] attribute of an exception, which an
    exception of the model, a class and a message, does not carry.  The
    arguments are those [argparse] has read. *)
Class Cli `{Host} : Type := {
  path_of_str : string -> path;
  path_div : path -> path -> path;
  path_resolve : path -> path;
  path_is_absolute : path -> bool;
  cwd : path;
  script_file : path;
  exn_filename : string -> option string;
}.

Section Main.
Context `{Builtins} `{Cli}.

(** [game_root_from_arg] (lines 23-24) *)
Definition game_root_from_arg (s : option string) : path :=
  if truthy_name s then path_resolve (path_of_str (default "" s))
  else path_resolve cwd.

(** [patch_path_from_arg] (lines 28-30) *)
Definition patch_path_from_arg (s : string) : path :=
  let p := path_of_str s in
  if path_is_absolute p then p
  else path_resolve (path_div (path_parent (path_resolve script_file)) p).

(** [fail] (lines 53-58): the failure block, and the exit code. *)
Definition trailer : string := tag ++ "ERROR: Patch failed to apply.".

Definition fail (message : string) (extra : option string) (code : Z)
  : world -> world * Z :=
  fun w =>
    let w1 := printed w (tag ++ "ERROR: " ++ message) in
    let w2 :=
      if truthy_name extra then printed w1 (tag ++ default "" extra) else w1 in
    (printed w2 trailer, code).

Definition banner : string :=
  tag ++ "===== UNITY INPUT PATCHER v" ++ VERSION ++ " =====".

(** Line 284: where the write was refused. *)
Definition where_of (msg : string) : string :=
  if truthy_name (exn_filename msg)
  then q (path_of_str (default "" (exn_filename msg)))
  else msg.

(** [main] (lines 265-292): the exit code.  [except PermissionError] stands
    before [except Exception]. *)
Definition main (game_root_arg : option string) (patch_arg : string)
  : world -> world * Z :=
  fun w =>
    let w0 := printed w banner in
    let root := game_root_from_arg game_root_arg in
    let patch_path := patch_path_from_arg patch_arg in
    if negb (fs_exists (w_fs w0) patch_path) then
      fail ("Patch file not found (" ++ q patch_path ++ ").") None 2 w0
    else
      match run root patch_path w0 with
      | (w1, Ok _) => (w1, 0)
      | (w1, Raise PermissionError msg) =>
          fail ("Cannot write to file (" ++ where_of msg ++ ").")
            (Some "Try closing the game or running it as Administrator.") 3 w1
      | (w1, Raise _ msg) => fail msg None 1 w1
      end.

End Main.

(** * The vocabulary of the properties *)

(** The name corroboration of lines 134-136 passes. *)
Definition name_ok (kv : list (string * value)) (axis_name : option string)
  : bool :=
  negb (truthy_name axis_name
        && negb (py_eq (dict_get "m_Name" (VStr "") kv)
                   (VStr (default "" axis_name)))).

(** The index is one of the list. *)
Definition in_range (axes : list loc) (axis_index : Z) : bool :=
  negb ((axis_index <? 0) || (axis_index >=? Z.of_nat (length axes))).


(** A value that is no container. *)
Definition is_scalar (v : value) : bool :=
  match v with
  | VList _ | VDict _ => false
  | _ => true
  end.

(** An integer that [float] converts: it is not beyond the range of a
    double. *)
Definition fits (v : value) : bool :=
  match v with
  | VInt z => match F64.of_Z z with S754_infinity _ => false | _ => true end
  | _ => true
  end.

(** The keys of a dict object, in their order. *)
Definition keys_of (v : value) : option (list string) :=
  match v with
  | VDict kv => Some (map fst kv)
  | _ => None
  end.

(** The first of the keys [field], [original], [patched] that an entry
    lacks. *)
Definition first_missing (d : list (string * value)) : option string :=
  List.find (fun k => negb (dict_mem k d)) ["field"; "original"; "patched"].

(** The live value of a field of the object at a reference. *)
Definition field_of (σ : store) (l : loc) (field : string) : option value :=
  match σ l with
  | VDict kv => assoc field kv
  | _ => None
  end.

(** The direction a call returned, and the class of the exception it
    raised. *)
Definition direction (r : result (string * string * string)) : option string :=
  match r with
  | Ok (mode, _, _) => Some mode
  | Raise _ _ => None
  end.

Definition raised {A} (r : result A) : option exn_class :=
  match r with
  | Ok _ => None
  | Raise c _ => Some c
  end.

(** White space only (the empty string included). *)
Fixpoint all_space (s : string) : bool :=
  match s with
  | EmptyString => true
  | String c s' => py_isspace c && all_space s'
  end.

(** An [axis_name] that is no string, or a string of white space only (the
    empty string is one). *)
Definition name_absent (v : value) : bool :=
  match v with
  | VStr s => all_space s
  | _ => true
  end.


Section Vocabulary.
Context `{Builtins} `{Host}.

(** The index [int(t["axis"])], when the key is there and [int] accepts its
    value. *)
Definition coerced_axis (d : list (string * value)) : option Z :=
  match assoc "axis" d with
  | Some v => py_int v
  | None => None
  end.

(** A computation that leaves the file system as it is. *)
Definition fs_pure {A} (m : W A) : Prop :=
  forall w w' r, m w = (w', r) -> w_fs w' = w_fs w.


(** The run reads its patch, settles its root, prepares (leaving it in the
    world [w1] with the axis list [axes]) and its loop passes the entries
    before [t]: it is about to process [t], in the store [σ1], having seen
    the direction [ms]. *)
Definition reaches (game_root patch_path : path) (w w1 : world)
    (axes : list loc) (t : value) (σ1 : store) (ms : option string) : Prop :=
  exists patch root w0 file_path toggles e im d elems pre post cs ls,
    read_json (w_fs w) patch_path = Ok (VDict patch) /\
    check_root game_root patch w = (w0, Ok root) /\
    prepare root patch (patch_id_of patch patch_path)
      (patch_name_of patch patch_path) w0
    = (w1, Ok (file_path, toggles, e, im, d, elems)) /\
    toggles = (pre ++ t :: post)%list /\
    axes = fst (alloc elems) /\
    toggle_loop axes pre None [] [] (snd (alloc elems)) = (σ1, Ok (ms, cs, ls)).

End Vocabulary.

(** * Concrete instances, to run the model on *)

(** ** An interpreter and a store *)

Module Demo.
(** A rendering that is right on plain strings, integers, booleans and
    [None]; a float or a container is rendered by a placeholder, and no
    statement below depends on that text. *)
Definition str (v : value) : string :=
  match v with
  | VStr s => s
  | VInt z => NilZero.string_of_int (Z.to_int z)
  | VBool true => "True"
  | VBool false => "False"
  | VNone => "None"
  | VFloat _ => "<float>"
  | VList _ => "<list>"
  | VDict _ => "<dict>"
  end.

Definition repr (v : value) : string :=
  match v with
  | VStr s => "'" ++ s ++ "'"
  | _ => str v
  end.

(** Unsigned decimal literals. *)
Definition parse_int (s : string) : option Z :=
  match NilZero.uint_of_string s with
  | Some d => Some (Z.of_uint d)
  | None => None
  end.

#[global] Instance builtins : Builtins :=
  {| py_str := str; py_repr := repr; int_of_str := parse_int |}.

Definition horizontal : value :=
  VDict [("m_Name", VStr "Horizontal"); ("sensitivity", VFloat F64.one);
         ("snap", VBool true)].
Definition vertical : value :=
  VDict [("m_Name", VStr "Vertical"); ("sensitivity", VFloat F64.one);
         ("snap", VBool true)].

(** Two axis objects, at references 0 and 1. *)
Definition store0 : store := fun l => nth l [horizontal; vertical] VNone.
Definition axes : list loc := [0%nat; 1%nat].
End Demo.

(** ** A host *)

Module DemoHost.

(** A file holds a JSON document or an object graph; a directory holds
    nothing. *)
Inductive file : Type :=
| Json (v : value)
| Asset (objs : list (value * value))
| Dir.

(** A path is the list of its components below the root of the file
    system; the root is its own parent, and the stem of a path is its last
    component. *)
Definition lookup_file (p : list string) (f : list (list string * file))
  : option file :=
  snd <$> List.find (fun e => bool_decide (fst e = p)) f.

Definition show (p : list string) : string :=
  "/" ++ String.concat "/" p.

#[global] Instance host : Host := {|
  path := list string;
  path_parent := fun p => removelast p;
  path_join := fun p s => (p ++ [s])%list;
  path_stem := fun p => List.last p "";
  path_str := show;
  bytes := list (value * value);
  fs := list (list string * file);
  fs_exists := fun f p => bool_decide (is_Some (lookup_file p f));
  fs_is_file := fun f p =>
    match lookup_file p f with
    | Some (Json _) | Some (Asset _) => true
    | _ => false
    end;
  read_json := fun f p =>
    match lookup_file p f with
    | Some (Json v) => Ok v
    | _ => Raise FileNotFoundError (show p)
    end;
  fs_write_bytes := fun f p data => ((p, Asset data) :: f, Ok tt);
  env := list (value * value);
  uobject := nat * (value * value);
  UnityPy_load := fun f s =>
    match List.find (fun e => String.eqb (show (fst e)) s) f with
    | Some (_, Asset objs) => Ok objs
    | _ => Raise FileNotFoundError s
    end;
  env_objects := fun e => imap (fun i o => (i, o)) e;
  obj_type_name := fun o => fst (snd o);
  read_tree := fun o => Ok (snd (snd o));
  write_tree := fun e o d => Ok (<[fst o := (fst (snd o), d)]> e);
  env_save := fun e => Ok e;
|}.

(** The game of the examples: [/games/Foo] holds [Foo.exe], the folder
    [Foo_Data] and the asset with the two axes of [Demo]. *)
Definition game_root : path := ["games"; "Foo"].
Definition data_dir : path := ["games"; "Foo"; "Foo_Data"].
Definition fs_root : path := [].
Definition single_json : path := ["single.json"].
Definition mixed_json : path := ["mixed.json"].
Definition fractional_json : path := ["fractional.json"].
Definition null_axis_json : path := ["null_axis.json"].

Definition entry (axis : value) (original patched : value)
    (axis_name : list (string * value)) : value :=
  VDict ([("type", VStr "legacy_axis_field"); ("axis", axis);
          ("field", VStr "sensitivity"); ("original", original);
          ("patched", patched)] ++ axis_name)%list.

Definition patch_of (toggles : list value) : value :=
  VDict [("id", VStr "demo"); ("name", VStr "Demo patch");
         ("root_contains", VList [VStr "Foo.exe"]);
         ("file", VStr "globalgamemanagers"); ("toggle", VList toggles)].

(** One entry, which applies. *)
Definition patch_single : value :=
  patch_of [entry (VInt 0) (VFloat F64.one) (VFloat F64.zero)
              [("axis_name", VStr "Horizontal")]].

(** Two entries: the first applies, the second reverts. *)
Definition entry_apply : value :=
  entry (VInt 0) (VFloat F64.one) (VFloat F64.zero) [].
Definition entry_revert : value :=
  entry (VInt 1) (VFloat F64.zero) (VFloat F64.one) [].
Definition patch_mixed : value := patch_of [entry_apply; entry_revert].

(** One entry whose axis is the float 1.5. *)
Definition three_halves : spec_float := F64.div (F64.of_Z 3) (F64.of_Z 2).
Definition entry_fractional : value :=
  entry (VFloat three_halves) (VFloat F64.one) (VFloat F64.zero) [].
Definition patch_fractional : value := patch_of [entry_fractional].

(** One entry whose axis is [null]. *)
Definition entry_null_axis : value :=
  entry VNone (VFloat F64.one) (VFloat F64.zero) [].
Definition patch_null_axis : value := patch_of [entry_null_axis].

Definition disk : fs :=
  [(["games"], Dir); (["games"; "Foo"], Dir);
   (["games"; "Foo"; "Foo.exe"], Json VNone);
   (["games"; "Foo"; "Foo_Data"], Dir);
   (["games"; "Foo"; "globalgamemanagers"],
    Asset [(VStr "Other", VDict []);
           (VStr "InputManager",
            VDict [("m_Axes", VList [Demo.horizontal; Demo.vertical])])]);
   (single_json, Json patch_single);
   (mixed_json, Json patch_mixed);
   (fractional_json, Json patch_fractional);
   (null_axis_json, Json patch_null_axis)].

Definition world0 : world := {| w_fs := disk; w_out := [] |}.

Definition asset_path : path := ["games"; "Foo"; "globalgamemanagers"].

(** The world after the four lines that [prepare] prints. *)
Definition prepared : world :=
  {| w_fs := disk;
     w_out := [tag ++ "Loaded patch: Demo patch (demo)";
               tag ++ "Root: " ++ q game_root;
               tag ++ "File: " ++ q asset_path;
               tag ++ "Root check: OK (1 required item)"] |}.

End DemoHost.

Module DemoCli.

(** The components of a string between slashes. *)
Fixpoint components (s acc : string) : list string :=
  match s with
  | EmptyString => if String.eqb acc "" then [] else [acc]
  | String c s' =>
      if Ascii.eqb c "/"
      then ((if String.eqb acc "" then [] else [acc])
            ++ components s' "")%list
      else components s' (acc ++ String c EmptyString)
  end.

(** The process of the examples runs at the root of the file system, where
    the script [patcher.py] lies beside the patch files: a relative path is
    read from the root, and no exception names a file. *)
#[global] Instance cli : Cli := {|
  path_of_str := fun s => components s "";
  path_div := fun p r => (p ++ r)%list;
  path_resolve := fun p => p;
  path_is_absolute := fun _ => false;
  cwd := DemoHost.fs_root;
  script_file := ["patcher.py"];
  exn_filename := fun _ => None;
|}.

End DemoCli.

(** * Properties *)

(** ** The comparator *)

Lemma eps_is_one_millionth :
  FLOAT_EPS = F64.div (F64.of_Z 1) (F64.of_Z 1000000).
Proof. vm_compute. reflexivity. Qed.

Example equal_within_eps :
  equal (VFloat F64.one) (VFloat (S754_finite false 4503599627372748 (-52)))
  = Ok true.
Proof. reflexivity. Qed.

Example equal_beyond_eps :
  equal (VFloat F64.one) (VFloat (S754_finite false 4503608634569751 (-52)))
  = Ok false.
Proof. reflexivity. Qed.

Example equal_nan : equal (VFloat F64.nan) (VFloat F64.nan) = Ok false.
Proof. reflexivity. Qed.

(** Integers are compared after conversion: 2^53 and 2^53 + 1 round to the
    same double. *)
Example equal_large_ints :
  equal (VInt 9007199254740992) (VInt 9007199254740993) = Ok true.
Proof. reflexivity. Qed.

Example equal_huge_int :
  equal (VInt (10 ^ 400)) (VInt 1)
  = Raise OverflowError "int too large to convert to float".
Proof. reflexivity. Qed.

Lemma sub_diag (f : spec_float) :
  F64.isfinite f = true -> F64.sub f f = S754_zero false.
Proof.
  destruct f as [s|s| |s m e]; try discriminate; intros _.
  - now destruct s.
  - unfold F64.sub, SFsub, shl_align.
    rewrite Z.min_id, !Z.sub_diag. reflexivity.
Qed.

(** A finite number is within tolerance of itself. *)
Lemma equal_refl_number (v : value) (f : spec_float) :
  is_number v = true -> py_float v = Ok f -> F64.isfinite f = true ->
  equal v v = Ok true.
Proof.
  intros Hn Hf Hfin. unfold equal. rewrite Hn. simpl.
  unfold mbind, result_mbind. rewrite Hf. simpl. rewrite Hfin.
  now rewrite sub_diag.
Qed.

Lemma equal_refl_str (s : string) : equal (VStr s) (VStr s) = Ok true.
Proof. unfold equal. simpl. now rewrite String.eqb_refl. Qed.

Lemma equal_refl_bool (b : bool) : equal (VBool b) (VBool b) = Ok true.
Proof. now destruct b. Qed.




(** ** The direction resolver *)

Lemma toggle_decision_applied (current original patched : value) :
  equal current original = Ok true ->
  toggle_decision current original patched = Ok (patched, "applied").
Proof. intros E. unfold toggle_decision. now rewrite E. Qed.

Lemma toggle_decision_reverted (current original patched : value) :
  equal current original = Ok false -> equal current patched = Ok true ->
  toggle_decision current original patched = Ok (original, "reverted").
Proof. intros E1 E2. unfold toggle_decision. rewrite E1. simpl. now rewrite E2. Qed.

Lemma toggle_decision_unknown (current original patched : value) :
  equal current original = Ok false -> equal current patched = Ok false ->
  toggle_decision current original patched = Ok (VNone, "unknown").
Proof. intros E1 E2. unfold toggle_decision. rewrite E1. simpl. now rewrite E2. Qed.

(** C1, as the code has it.  The resolver answers [(patched, "applied")]
    when [current] tolerantly equals [original]; otherwise
    [(original, "reverted")] when [current] tolerantly equals [patched];
    otherwise [(None, "unknown")].  In particular
    [resolve(original, original, patched)] is [(patched, "applied")] for every
    [original] that tolerantly equals itself, and
    [resolve(patched, original, patched)] is [(original, "reverted")] for
    every [patched] that tolerantly equals itself and does not tolerantly
    equal [original].  A comparison that raises makes the resolver raise. *)
Theorem toggle_decision_spec (current original patched : value) :
  (equal current original = Ok true ->
   toggle_decision current original patched = Ok (patched, "applied"))
  /\ (equal current original = Ok false -> equal current patched = Ok true ->
      toggle_decision current original patched = Ok (original, "reverted"))
  /\ (equal current original = Ok false -> equal current patched = Ok false ->
      toggle_decision current original patched = Ok (VNone, "unknown"))
  /\ (equal original original = Ok true ->
      toggle_decision original original patched = Ok (patched, "applied"))
  /\ (equal patched patched = Ok true -> equal patched original = Ok false ->
      toggle_decision patched original patched = Ok (original, "reverted"))
  /\ (forall c msg,
        equal current original = Raise c msg \/
        (equal current original = Ok false /\
         equal current patched = Raise c msg) ->
        toggle_decision current original patched = Raise c msg).
Proof.
  repeat split.
  - apply toggle_decision_applied.
  - apply toggle_decision_reverted.
  - apply toggle_decision_unknown.
  - apply toggle_decision_applied.
  - intros Hp Hpo. now apply toggle_decision_reverted.
  - intros c msg [E|[E1 E2]]; unfold toggle_decision.
    + now rewrite E.
    + rewrite E1. simpl. now rewrite E2.
Qed.

Lemma toggle_decision_spec_witness :
  toggle_decision (VFloat F64.one) (VFloat F64.one) (VFloat F64.zero)
  = Ok (VFloat F64.zero, "applied")
  /\ toggle_decision (VFloat F64.zero) (VFloat F64.one) (VFloat F64.zero)
     = Ok (VFloat F64.one, "reverted")
  /\ toggle_decision (VStr "x") (VFloat F64.one) (VFloat F64.zero)
     = Ok (VNone, "unknown").
Proof.
  pose proof (toggle_decision_spec (VFloat F64.one) (VFloat F64.one)
                (VFloat F64.zero)) as (_ & _ & _ & H4 & _).
  pose proof (toggle_decision_spec (VFloat F64.zero) (VFloat F64.one)
                (VFloat F64.zero)) as (_ & _ & _ & _ & H5 & _).
  pose proof (toggle_decision_spec (VStr "x") (VFloat F64.one)
                (VFloat F64.zero)) as (_ & _ & H3 & _).
  split; [|split].
  - apply H4. reflexivity.
  - apply H5; reflexivity.
  - apply H3; reflexivity.
Defined.

(** An infinite [original] does not tolerantly equal itself: the resolver
    answers [(None, "unknown")] on [resolve(original, original, patched)],
    although [original] and [patched] are not tolerantly equal. *)
Lemma toggle_decision_infinite_original :
  equal (VFloat F64.inf) (VFloat F64.zero) = Ok false
  /\ equal (VFloat F64.zero) (VFloat F64.inf) = Ok false
  /\ toggle_decision (VFloat F64.inf) (VFloat F64.inf) (VFloat F64.zero)
     = Ok (VNone, "unknown").
Proof. repeat split. Qed.

(** ** Dict objects *)

Lemma assoc_dict_set_eq (k : string) (v : value) (kv : list (string * value)) :
  assoc k (dict_set k v kv) = Some v.
Proof.
  induction kv as [|[k' v'] kv IH]; simpl.
  - now rewrite String.eqb_refl.
  - destruct (String.eqb k k') eqn:E; simpl; now rewrite E.
Qed.

Lemma assoc_dict_set_ne (k k' : string) (v : value) (kv : list (string * value)) :
  k' <> k -> assoc k' (dict_set k v kv) = assoc k' kv.
Proof.
  intros Hne. induction kv as [|[k0 v0] kv IH]; simpl.
  - apply String.eqb_neq in Hne. now rewrite Hne.
  - destruct (String.eqb k k0) eqn:E; simpl.
    + apply String.eqb_eq in E. subst k0.
      apply String.eqb_neq in Hne. now rewrite Hne.
    + now rewrite IH.
Qed.

Lemma keys_dict_set (k : string) (v : value) (kv : list (string * value)) :
  dict_mem k kv = true -> map fst (dict_set k v kv) = map fst kv.
Proof.
  unfold dict_mem. induction kv as [|[k0 v0] kv IH]; simpl; [discriminate|].
  destruct (String.eqb k k0) eqn:E; simpl; [reflexivity|].
  intros Hm. now rewrite IH.
Qed.

Lemma dict_get_mem (k : string) (dflt : value) (kv : list (string * value)) :
  dict_mem k kv = true -> assoc k kv = Some (dict_get k dflt kv).
Proof. unfold dict_mem, dict_get. now destruct (assoc k kv). Qed.

(** ** The store *)

Lemma store_set_eq (l : loc) (v : value) (σ : store) : store_set l v σ l = v.
Proof. unfold store_set. now rewrite Nat.eqb_refl. Qed.

Lemma store_set_ne (l l' : loc) (v : value) (σ : store) :
  l' <> l -> store_set l v σ l' = σ l'.
Proof. intros Hne. unfold store_set. apply Nat.eqb_neq in Hne. now rewrite Hne. Qed.

(** ** The field mutator *)

Ltac st_unfold :=
  unfold mbind, mret, ST_bind, ST_ret, lift, load, raise, write in *.

Section Mutator.
Context `{Builtins}.

Lemma in_range_spec (axes : list loc) (i : Z) :
  in_range axes i = true <-> 0 <= i < Z.of_nat (length axes).
Proof. unfold in_range. lia. Qed.

(** When every test passes, the call writes the new value and returns. *)
Lemma mutator_ok (axes : list loc) (i : Z) (field : string)
    (original patched : value) (axis_name : option string) (σ : store)
    (kv : list (string * value)) (cur new : value) (mode : string) :
  in_range axes i = true ->
  σ (axes !!! Z.to_nat i) = VDict kv ->
  name_ok kv axis_name = true ->
  assoc field kv = Some cur ->
  toggle_decision cur original patched = Ok (new, mode) ->
  new <> VNone ->
  toggle_legacy_axis_field axes i field original patched axis_name σ
  = (store_set (axes !!! Z.to_nat i) (VDict (dict_set field new kv)) σ,
     Ok (mode,
         log_line i (dict_get "m_Name" (VStr "") kv) field cur new,
         check_label (dict_get "m_Name" (VStr "") kv) axis_name)).
Proof.
  unfold in_range, name_ok, toggle_legacy_axis_field.
  intros Hr Hσ Hn Hf Hd Hnew.
  apply negb_true_iff in Hr, Hn. rewrite Hr.
  assert (Hm : dict_mem field kv = true) by (unfold dict_mem; now rewrite Hf).
  assert (Hc : dict_get field VNone kv = cur) by (unfold dict_get; now rewrite Hf).
  st_unfold. rewrite Hσ. simpl. rewrite Hn, Hm, Hc. simpl. rewrite Hd.
  destruct new; try reflexivity. congruence.
Qed.

(** What a call that returns has done. *)
Lemma mutator_ok_inv (axes : list loc) (i : Z) (field : string)
    (original patched : value) (axis_name : option string) (σ σ' : store)
    (mode line check : string) :
  toggle_legacy_axis_field axes i field original patched axis_name σ
  = (σ', Ok (mode, line, check)) ->
  in_range axes i = true /\
  exists kv cur new,
    σ (axes !!! Z.to_nat i) = VDict kv /\
    name_ok kv axis_name = true /\
    assoc field kv = Some cur /\
    toggle_decision cur original patched = Ok (new, mode) /\
    new <> VNone /\
    σ' = store_set (axes !!! Z.to_nat i) (VDict (dict_set field new kv)) σ /\
    check = check_label (dict_get "m_Name" (VStr "") kv) axis_name.
Proof.
  unfold in_range, name_ok, toggle_legacy_axis_field.
  destruct ((i <? 0) || (i >=? Z.of_nat (length axes))) eqn:Hr;
    st_unfold; [discriminate|].
  destruct (σ (axes !!! Z.to_nat i)) eqn:Hσ; simpl; try discriminate.
  destruct (truthy_name axis_name && _) eqn:Hn; [discriminate|].
  destruct (dict_mem field kv) eqn:Hm; simpl; [|discriminate].
  apply (dict_get_mem _ VNone) in Hm.
  destruct (toggle_decision _ original patched) as [[new m]|] eqn:Hd;
    [|discriminate].
  intros E. split; [reflexivity|].
  exists kv, (dict_get field VNone kv), new.
  destruct new; try discriminate; injection E as <- <- <- <-;
    (repeat split; [now rewrite Hn | assumption | assumption | congruence]).
Qed.

(** A call that raises has written nothing. *)
Lemma mutator_raise_inv (axes : list loc) (i : Z) (field : string)
    (original patched : value) (axis_name : option string) (σ σ' : store)
    (c : exn_class) (msg : string) :
  toggle_legacy_axis_field axes i field original patched axis_name σ
  = (σ', Raise c msg) ->
  σ' = σ.
Proof.
  unfold toggle_legacy_axis_field.
  destruct ((i <? 0) || (i >=? Z.of_nat (length axes)));
    st_unfold; [congruence|].
  destruct (σ (axes !!! Z.to_nat i)); simpl; try congruence.
  destruct (truthy_name axis_name && _); [congruence|].
  destruct (negb (dict_mem field kv)); [congruence|].
  destruct (toggle_decision _ original patched) as [[new m]|]; [|congruence].
  destruct new; congruence.
Qed.

End Mutator.

(** Distinct positions of a list without repetition hold distinct
    references. *)
Lemma NoDup_lookup_total_ne (axes : list loc) (i j : nat) :
  NoDup axes -> (i < length axes)%nat -> (j < length axes)%nat -> j <> i ->
  axes !!! j <> axes !!! i.
Proof.
  intros Hnd Hi Hj Hne Heq. apply Hne.
  apply (NoDup_lookup axes j i (axes !!! i) Hnd).
  - rewrite <- Heq. now apply list_lookup_lookup_total_lt.
  - now apply list_lookup_lookup_total_lt.
Qed.

Lemma field_of_written (σ : store) (l : loc) (field : string) (v : value)
    (kv : list (string * value)) :
  field_of (store_set l (VDict (dict_set field v kv)) σ) l field = Some v.
Proof. unfold field_of. rewrite store_set_eq. apply assoc_dict_set_eq. Qed.

Section MutatorProperties.
Context `{Builtins}.

(** C5. An index that is negative, or at least the length of the collection,
    makes the mutator raise the out-of-range [IndexError]; the store is the
    one it was given, no element is touched, and no other position is used
    in place of the index. *)
Theorem index_out_of_range (axes : list loc) (i : Z) (field : string)
    (original patched : value) (axis_name : option string) (σ : store) :
  i < 0 \/ Z.of_nat (length axes) <= i ->
  toggle_legacy_axis_field axes i field original patched axis_name σ
  = (σ, Raise IndexError
          ("Axis index out of range: " ++ str_of_Z i
           ++ " (axes=" ++ str_of_Z (Z.of_nat (length axes)) ++ ")")).
Proof.
  intros Hi. unfold toggle_legacy_axis_field.
  replace ((i <? 0) || (i >=? Z.of_nat (length axes))) with true by lia.
  reflexivity.
Qed.

(** C6. When an expected name is supplied (a non-empty string, what
    [if axis_name:] tests) and the live [m_Name] of the indexed element is
    not equal to it, the mutator raises the name-mismatch [RuntimeError] and
    the store is the one it was given: the field has not been written. *)
Theorem name_mismatch_rejected (axes : list loc) (i : Z) (field : string)
    (original patched : value) (expected : string) (σ : store)
    (kv : list (string * value)) :
  0 <= i < Z.of_nat (length axes) ->
  σ (axes !!! Z.to_nat i) = VDict kv ->
  expected <> "" ->
  py_eq (dict_get "m_Name" (VStr "") kv) (VStr expected) = false ->
  toggle_legacy_axis_field axes i field original patched (Some expected) σ
  = (σ, Raise RuntimeError
          ("Axis name mismatch at index " ++ str_of_Z i
           ++ ": expected " ++ py_repr (VStr expected)
           ++ ", found " ++ py_repr (dict_get "m_Name" (VStr "") kv))).
Proof.
  intros Hi Hσ Hne Hname. unfold toggle_legacy_axis_field.
  replace ((i <? 0) || (i >=? Z.of_nat (length axes))) with false by lia.
  st_unfold. rewrite Hσ. simpl. rewrite Hname.
  apply String.eqb_neq in Hne. now rewrite Hne.
Qed.

(** C9. A call that returns has written one field of one object: every
    other object of the store is as before (so is the element at every other
    position of a list that holds no object twice), and in the indexed
    object the keys and every field but the named one are as before.  A call
    that raises, whatever the error, leaves the whole store as it was. *)
Theorem mutator_frame (axes : list loc) (i : Z) (field : string)
    (original patched : value) (axis_name : option string) (σ σ' : store)
    (r : result (string * string * string)) :
  toggle_legacy_axis_field axes i field original patched axis_name σ = (σ', r) ->
  match r with
  | Raise _ _ => σ' = σ
  | Ok _ =>
      0 <= i < Z.of_nat (length axes) /\
      (forall l', l' <> axes !!! Z.to_nat i -> σ' l' = σ l') /\
      (NoDup axes ->
       forall j, (j < length axes)%nat -> j <> Z.to_nat i ->
                 σ' (axes !!! j) = σ (axes !!! j)) /\
      exists kv kv',
        σ (axes !!! Z.to_nat i) = VDict kv /\
        σ' (axes !!! Z.to_nat i) = VDict kv' /\
        map fst kv' = map fst kv /\
        (exists new, assoc field kv' = Some new) /\
        forall f, f <> field -> assoc f kv' = assoc f kv
  end.
Proof.
  destruct r as [[[mode line] check]|c msg]; intros E.
  - apply mutator_ok_inv in E
      as (Hr & kv & cur & new & Hσ & _ & Hf & _ & _ & -> & _).
    apply in_range_spec in Hr.
    split; [exact Hr|]. split; [|split].
    + intros l' Hl'. now apply store_set_ne.
    + intros Hnd j Hj Hji. apply store_set_ne.
      apply NoDup_lookup_total_ne; trivial. lia.
    + exists kv, (dict_set field new kv). rewrite store_set_eq.
      repeat split; trivial.
      * apply keys_dict_set. unfold dict_mem. now rewrite Hf.
      * exists new. apply assoc_dict_set_eq.
      * intros f Hfne. now apply assoc_dict_set_ne.
  - now apply mutator_raise_inv in E.
Qed.

(** C4, as the code has it.  Let the live value of the field tolerantly
    equal [original], let [patched] tolerantly equal itself and not
    [original], let neither be [None], and let the expected name, when one is
    supplied, match the element before and after the first call.  Then the
    first call sets the field to [patched] with direction "applied", and a
    second call with the same arguments sets it to [original] with direction
    "reverted". *)
Theorem apply_then_revert (axes : list loc) (i : Z) (field : string)
    (original patched : value) (axis_name : option string) (σ : store)
    (kv : list (string * value)) (cur : value) :
  let l := axes !!! Z.to_nat i in
  0 <= i < Z.of_nat (length axes) ->
  σ l = VDict kv ->
  assoc field kv = Some cur ->
  equal cur original = Ok true ->
  equal patched original = Ok false ->
  equal patched patched = Ok true ->
  original <> VNone -> patched <> VNone ->
  name_ok kv axis_name = true ->
  name_ok (dict_set field patched kv) axis_name = true ->
  exists σ1 line1 check1 σ2 line2 check2,
    toggle_legacy_axis_field axes i field original patched axis_name σ
    = (σ1, Ok ("applied", line1, check1)) /\
    field_of σ1 l field = Some patched /\
    toggle_legacy_axis_field axes i field original patched axis_name σ1
    = (σ2, Ok ("reverted", line2, check2)) /\
    field_of σ2 l field = Some original.
Proof.
  intros l Hi Hσ Hf Hco Hpo Hpp Ho Hp Hn1 Hn2.
  apply in_range_spec in Hi.
  pose proof (mutator_ok axes i field original patched axis_name σ kv cur
                patched "applied" Hi Hσ Hn1 Hf
                (toggle_decision_applied _ _ _ Hco) Hp) as E1.
  set (σ1 := store_set l (VDict (dict_set field patched kv)) σ) in *.
  assert (Hσ1 : σ1 l = VDict (dict_set field patched kv))
    by apply store_set_eq.
  pose proof (mutator_ok axes i field original patched axis_name σ1 _ patched
                original "reverted" Hi Hσ1 Hn2 (assoc_dict_set_eq _ _ _)
                (toggle_decision_reverted _ _ _ Hpo Hpp) Ho) as E2.
  eexists _, _, _, _, _, _. split; [exact E1|]. split; [|split; [exact E2|]].
  - apply field_of_written.
  - apply field_of_written.
Qed.

End MutatorProperties.

Lemma index_out_of_range_witness :
  toggle_legacy_axis_field Demo.axes 2 "sensitivity" (VFloat F64.one)
    (VFloat F64.zero) None Demo.store0
  = (Demo.store0, Raise IndexError "Axis index out of range: 2 (axes=2)")
  /\ toggle_legacy_axis_field Demo.axes (-1) "sensitivity" (VFloat F64.one)
       (VFloat F64.zero) None Demo.store0
     = (Demo.store0, Raise IndexError "Axis index out of range: -1 (axes=2)").
Proof.
  split.
  - exact (index_out_of_range Demo.axes 2 "sensitivity" (VFloat F64.one)
             (VFloat F64.zero) None Demo.store0 ltac:(right; simpl; lia)).
  - exact (index_out_of_range Demo.axes (-1) "sensitivity" (VFloat F64.one)
             (VFloat F64.zero) None Demo.store0 ltac:(left; lia)).
Defined.

Lemma name_mismatch_rejected_witness :
  toggle_legacy_axis_field Demo.axes 1 "sensitivity" (VFloat F64.one)
    (VFloat F64.zero) (Some "Horizontal") Demo.store0
  = (Demo.store0,
     Raise RuntimeError
       "Axis name mismatch at index 1: expected 'Horizontal', found 'Vertical'").
Proof.
  exact (name_mismatch_rejected Demo.axes 1 "sensitivity" (VFloat F64.one)
           (VFloat F64.zero) "Horizontal" Demo.store0
           [("m_Name", VStr "Vertical"); ("sensitivity", VFloat F64.one);
            ("snap", VBool true)]
           ltac:(simpl; lia) eq_refl ltac:(discriminate) eq_refl).
Defined.

Lemma mutator_frame_witness :
  let σ' :=
    fst (toggle_legacy_axis_field Demo.axes 0 "sensitivity" (VFloat F64.one)
           (VFloat F64.zero) (Some "Horizontal") Demo.store0) in
  (forall l', l' <> 0%nat -> σ' l' = Demo.store0 l') /\
  σ' 0%nat
  = VDict [("m_Name", VStr "Horizontal"); ("sensitivity", VFloat F64.zero);
           ("snap", VBool true)].
Proof.
  pose proof (mutator_frame Demo.axes 0 "sensitivity" (VFloat F64.one)
                (VFloat F64.zero) (Some "Horizontal") Demo.store0 _ _ eq_refl)
    as (_ & Hframe & _ & _).
  split; [exact Hframe | reflexivity].
Defined.

(** The end-to-end example of the specification: sensitivity 1.0, toggled
    to 0.0 and back. *)
Lemma apply_then_revert_witness :
  exists σ1 line1 check1 σ2 line2 check2,
    toggle_legacy_axis_field Demo.axes 0 "sensitivity" (VFloat F64.one)
      (VFloat F64.zero) (Some "Horizontal") Demo.store0
    = (σ1, Ok ("applied", line1, check1)) /\
    field_of σ1 0%nat "sensitivity" = Some (VFloat F64.zero) /\
    toggle_legacy_axis_field Demo.axes 0 "sensitivity" (VFloat F64.one)
      (VFloat F64.zero) (Some "Horizontal") σ1
    = (σ2, Ok ("reverted", line2, check2)) /\
    field_of σ2 0%nat "sensitivity" = Some (VFloat F64.one).
Proof.
  exact (apply_then_revert Demo.axes 0 "sensitivity" (VFloat F64.one)
           (VFloat F64.zero) (Some "Horizontal") Demo.store0
           [("m_Name", VStr "Horizontal"); ("sensitivity", VFloat F64.one);
            ("snap", VBool true)]
           (VFloat F64.one)
           ltac:(simpl; lia) eq_refl eq_refl eq_refl eq_refl eq_refl
           ltac:(discriminate) ltac:(discriminate) eq_refl eq_refl).
Defined.

(** With [patched] infinite the first call applies the patch and the second
    call, with the same arguments, raises: the live value [inf] is within
    tolerance of nothing, itself included. *)
Lemma revert_fails_for_infinite_patched :
  field_of Demo.store0 0%nat "sensitivity" = Some (VFloat F64.one)
  /\ equal (VFloat F64.one) (VFloat F64.inf) = Ok false
  /\ equal (VFloat F64.inf) (VFloat F64.one) = Ok false
  /\ (let first :=
        toggle_legacy_axis_field Demo.axes 0 "sensitivity" (VFloat F64.one)
          (VFloat F64.inf) None Demo.store0 in
      direction (snd first) = Some "applied"
      /\ field_of (fst first) 0%nat "sensitivity" = Some (VFloat F64.inf)
      /\ let second :=
           toggle_legacy_axis_field Demo.axes 0 "sensitivity" (VFloat F64.one)
             (VFloat F64.inf) None (fst first) in
         raised (snd second) = Some RuntimeError
         /\ field_of (fst second) 0%nat "sensitivity" = Some (VFloat F64.inf)).
Proof. repeat split. Qed.

(** With [patched] being [None] the first call raises: the resolver's
    [(None, "applied")] is read as the unknown state. *)
Example apply_fails_for_null_patched :
  let call :=
    toggle_legacy_axis_field Demo.axes 0 "sensitivity" (VFloat F64.one) VNone
      None Demo.store0 in
  toggle_decision (VFloat F64.one) (VFloat F64.one) VNone = Ok (VNone, "applied")
  /\ raised (snd call) = Some RuntimeError
  /\ field_of (fst call) 0%nat "sensitivity" = Some (VFloat F64.one).
Proof. repeat split. Qed.

(** When the toggled field is the name itself and a name is expected, the
    first call renames the element and the second call, with the same
    arguments, no longer finds the expected name. *)
Example revert_fails_when_name_is_toggled :
  let first :=
    toggle_legacy_axis_field Demo.axes 0 "m_Name" (VStr "Horizontal")
      (VStr "Strafe") (Some "Horizontal") Demo.store0 in
  let second :=
    toggle_legacy_axis_field Demo.axes 0 "m_Name" (VStr "Horizontal")
      (VStr "Strafe") (Some "Horizontal") (fst first) in
  direction (snd first) = Some "applied"
  /\ snd second
     = Raise RuntimeError
         "Axis name mismatch at index 0: expected 'Horizontal', found 'Strafe'".
Proof. repeat split. Qed.

(** A list that holds one object at two positions: the write through
    position 0 is seen at position 1. *)
Example shared_element_is_one_object :
  let shared : list loc := [0%nat; 0%nat] in
  let call :=
    toggle_legacy_axis_field shared 0 "sensitivity" (VFloat F64.one)
      (VFloat F64.zero) None Demo.store0 in
  field_of (fst call) (shared !!! 1%nat) "sensitivity" = Some (VFloat F64.zero).
Proof. reflexivity. Qed.

(** ** The loop over the entries *)

Section LoopFacts.
Context `{Builtins}.

(** The loop over a list of entries that all pass goes on with the rest. *)
Lemma toggle_loop_app (axes : list loc) (pre rest : list value)
    (ms ms1 : option string) (cs ls cs1 ls1 : list string) (σ σ1 : store) :
  toggle_loop axes pre ms cs ls σ = (σ1, Ok (ms1, cs1, ls1)) ->
  toggle_loop axes (pre ++ rest) ms cs ls σ
  = toggle_loop axes rest ms1 cs1 ls1 σ1.
Proof.
  revert ms cs ls σ.
  induction pre as [|t pre IH]; intros ms cs ls σ; simpl.
  - st_unfold. now intros [= <- <- <- <-].
  - st_unfold.
    destruct (toggle_entry axes t σ) as [σa [[[mode line] check]|c msg]];
      [|discriminate].
    destruct ms as [seen|].
    + destruct (negb (String.eqb seen mode)); [discriminate|]. apply IH.
    + apply IH.
Qed.

(** An entry that raises ends the loop with its exception. *)
Lemma toggle_loop_raise (axes : list loc) (t : value) (post : list value)
    (ms : option string) (cs ls : list string) (σ σ' : store)
    (c : exn_class) (msg : string) :
  toggle_entry axes t σ = (σ', Raise c msg) ->
  toggle_loop axes (t :: post) ms cs ls σ = (σ', Raise c msg).
Proof. intros E. simpl. st_unfold. now rewrite E. Qed.

(** An entry whose direction differs from the one seen ends the loop with
    the mixed-direction error; the entry has been applied to the store. *)
Lemma toggle_loop_mixed (axes : list loc) (t : value) (post : list value)
    (seen mode line check : string) (cs ls : list string) (σ σ' : store) :
  toggle_entry axes t σ = (σ', Ok (mode, line, check)) ->
  mode <> seen ->
  toggle_loop axes (t :: post) (Some seen) cs ls σ
  = (σ', Raise RuntimeError mixed_msg).
Proof.
  intros E Hne. simpl. st_unfold. rewrite E.
  replace (String.eqb seen mode) with false; [reflexivity|].
  symmetry. apply String.eqb_neq. congruence.
Qed.

End LoopFacts.

(** ** The orchestrator *)

Section RunFacts.
Context `{Builtins} `{Host}.

Lemma fs_pure_ret {A} (a : A) : fs_pure (mret a : W A).
Proof. intros w w' r [= <- _]. reflexivity. Qed.

Lemma fs_pure_raise {A} (c : exn_class) (msg : string) :
  fs_pure (raise c msg : W A).
Proof. intros w w' r [= <- _]. reflexivity. Qed.

Lemma fs_pure_lift {A} (x : result A) : fs_pure (lift x : W A).
Proof. intros w w' r [= <- _]. reflexivity. Qed.

Lemma fs_pure_bind {A B} (m : W A) (k : A -> W B) :
  fs_pure m -> (forall a, fs_pure (k a)) -> fs_pure (m ≫= k).
Proof.
  intros Hm Hk w w' r. st_unfold.
  destruct (m w) as [w1 [a|c msg]] eqn:E.
  - intros E2. rewrite (Hk _ _ _ _ E2). eapply Hm, E.
  - intros [= <- _]. eapply Hm, E.
Qed.

Lemma fs_pure_print (line : string) : fs_pure (print line).
Proof. intros w w' r [= <- _]. reflexivity. Qed.

Lemma fs_pure_target_file (root : path) (rel : string) :
  fs_pure (target_file root rel).
Proof.
  intros w w' r. unfold target_file.
  destruct (_ || _); now intros [= <- _].
Qed.

Lemma fs_pure_verify (root : path) (items : list string) :
  fs_pure (verify_root_contains root items).
Proof.
  intros w w' r. unfold verify_root_contains.
  destruct (missing_items _ _ _); now intros [= <- _].
Qed.

Lemma fs_pure_check_root (game_root : path) (patch : list (string * value)) :
  fs_pure (check_root game_root patch).
Proof.
  unfold check_root.
  destruct (dict_get "root_contains" (VList []) patch) as [| | | | |l|];
    try apply fs_pure_ret.
  destruct l as [|x xs]; [apply fs_pure_ret|].
  intros w w' r.
  destruct (verify_root_contains game_root _ w) as [w1 [u|c msg]] eqn:E.
  - intros [= <- _]. eapply fs_pure_verify, E.
  - apply fs_pure_verify in E.
    destruct c; try (now intros [= <- _]).
    destruct (decide _); [|now intros [= <- _]].
    intros E2. rewrite <- E. revert E2.
    apply fs_pure_bind; [apply fs_pure_print|]. intros _.
    apply fs_pure_bind; [apply fs_pure_verify|]. intros _.
    apply fs_pure_ret.
Qed.

Lemma fs_pure_prepare (game_root : path) (patch : list (string * value))
    (patch_id patch_name : string) :
  fs_pure (prepare game_root patch patch_id patch_name).
Proof.
  unfold prepare.
  repeat first
    [ apply fs_pure_bind; [|intros ?]
    | apply fs_pure_ret | apply fs_pure_raise | apply fs_pure_lift
    | apply fs_pure_print | apply fs_pure_target_file
    | match goal with
      | |- fs_pure (match ?x with _ => _ end) => destruct x
      | |- fs_pure (if ?x then _ else _) => destruct x
      end ].
  intros w w' r [= <- _]. reflexivity.
Qed.

(** When the preparation succeeds and the loop raises, the run raises the
    same exception and the file system is the one the run started with. *)
Lemma run_at_loop_raises (game_root : path) (patch : list (string * value))
    (patch_id patch_name : string) (w w1 : world) (file_path : path)
    (toggles : list value) (e : env) (im : uobject)
    (d : list (string * value)) (elems : list value) (σ' : store)
    (c : exn_class) (msg : string) :
  prepare game_root patch patch_id patch_name w
  = (w1, Ok (file_path, toggles, e, im, d, elems)) ->
  toggle_loop (fst (alloc elems)) toggles None [] [] (snd (alloc elems))
  = (σ', Raise c msg) ->
  run_at game_root patch patch_id patch_name w = (w1, Raise c msg)
  /\ w_fs w1 = w_fs w.
Proof.
  intros Hp Hl. split.
  - unfold run_at. st_unfold. rewrite Hp. simpl in *. now rewrite Hl.
  - eapply fs_pure_prepare, Hp.
Qed.

End RunFacts.

Section RunProperties.
Context `{Builtins} `{Host}.

(** The run up to the loop: the patch is read, the root is settled. *)
Lemma run_reaches_run_at (game_root patch_path root : path) (w w0 : world)
    (patch : list (string * value)) :
  read_json (w_fs w) patch_path = Ok (VDict patch) ->
  check_root game_root patch w = (w0, Ok root) ->
  run game_root patch_path w
  = run_at root patch (patch_id_of patch patch_path)
      (patch_name_of patch patch_path) w0.
Proof.
  intros Hj Hc. unfold run, load_json. st_unfold. rewrite Hj. simpl.
  now rewrite Hc.
Qed.

Lemma run_root_raises (game_root patch_path : path) (w w0 : world)
    (patch : list (string * value)) (c : exn_class) (msg : string) :
  read_json (w_fs w) patch_path = Ok (VDict patch) ->
  check_root game_root patch w = (w0, Raise c msg) ->
  run game_root patch_path w = (w0, Raise c msg).
Proof.
  intros Hj Hc. unfold run, load_json. st_unfold. rewrite Hj. simpl.
  now rewrite Hc.
Qed.

(** Lines 175-184, when a marker is missing under the given root. *)
Lemma check_root_failed (game_root : path) (w : world)
    (patch : list (string * value)) (x : value) (xs : list value)
    (m : string) (ms : list string) :
  dict_get "root_contains" (VList []) patch = VList (x :: xs) ->
  missing_items (w_fs w) game_root (map py_str (x :: xs)) = m :: ms ->
  check_root game_root patch w
  = if decide (path_parent game_root <> game_root) then
      (printed w (retry_line game_root),
       match
         missing_items (w_fs w) (path_parent game_root) (map py_str (x :: xs))
       with
       | [] => Ok (path_parent game_root)
       | missing =>
           Raise RuntimeError (root_check_msg (path_parent game_root) missing)
       end)
    else (w, Raise RuntimeError (root_check_msg game_root (m :: ms))).
Proof.
  intros Hrc Hmiss. unfold check_root. rewrite Hrc.
  unfold verify_root_contains at 1. rewrite Hmiss.
  destruct (decide _); [|reflexivity].
  st_unfold. unfold print, verify_root_contains, printed, retry_line.
  cbn [w_fs w_out].
  now destruct (missing_items (w_fs w) (path_parent game_root) _).
Qed.

(** A run whose loop raises at an entry raises the same exception, and its
    file system is the one it started with. *)
Lemma run_loop_raises (game_root patch_path : path) (w w1 : world)
    (axes : list loc) (t : value) (σ1 σ2 : store) (ms : option string)
    (c : exn_class) (msg : string) :
  reaches game_root patch_path w w1 axes t σ1 ms ->
  (forall post cs ls,
     toggle_loop axes (t :: post) ms cs ls σ1 = (σ2, Raise c msg)) ->
  run game_root patch_path w = (w1, Raise c msg) /\ w_fs w1 = w_fs w.
Proof.
  intros (patch & root & w0 & file_path & toggles & e & im & d & elems & pre
          & post & cs & ls & Hj & Hc & Hp & -> & -> & Hpre) Ht.
  rewrite (run_reaches_run_at _ _ _ _ _ _ Hj Hc).
  destruct (run_at_loop_raises root patch _ _ w0 w1 file_path
              (pre ++ t :: post)%list e im d elems σ2 c msg Hp)
    as [Hr Hfs].
  - rewrite (toggle_loop_app _ _ _ _ _ _ _ _ _ _ _ Hpre). apply Ht.
  - split; [exact Hr|]. rewrite Hfs. eapply fs_pure_check_root, Hc.
Qed.

(** C3. When the entries of a run do not agree on the direction (the loop
    comes to an entry that the mutator resolves to a direction other than
    the one seen so far), the run raises the mixed apply/revert
    [RuntimeError] and the file system is the one the run started with:
    nothing is written to the target file, the write being the step after
    the loop. *)
Theorem mixed_directions_abort (game_root patch_path : path) (w w1 : world)
    (axes : list loc) (t : value) (σ1 σ2 : store)
    (seen mode line check : string) :
  reaches game_root patch_path w w1 axes t σ1 (Some seen) ->
  toggle_entry axes t σ1 = (σ2, Ok (mode, line, check)) ->
  mode <> seen ->
  run game_root patch_path w = (w1, Raise RuntimeError mixed_msg)
  /\ w_fs w1 = w_fs w.
Proof.
  intros Hreach Ht Hne.
  apply (run_loop_raises _ _ _ _ _ _ _ σ2 _ _ _ Hreach).
  intros post cs ls. now apply toggle_loop_mixed with mode line check.
Qed.

(** C7. Let the patch list root markers and let some be missing under the
    given root.  If the root has a strict parent, the same check is made
    once more, against the parent: when it passes, the run goes on with the
    parent as its root; when it fails, the run raises that failure, whatever
    lies above the parent.  If the root is its own parent, the run raises the
    failure of the first check. *)
Theorem root_fallback (game_root patch_path : path) (w : world)
    (patch : list (string * value)) (x : value) (xs : list value)
    (m : string) (ms : list string) :
  let items := map py_str (x :: xs) in
  let parent := path_parent game_root in
  read_json (w_fs w) patch_path = Ok (VDict patch) ->
  dict_get "root_contains" (VList []) patch = VList (x :: xs) ->
  missing_items (w_fs w) game_root items = m :: ms ->
  (parent <> game_root ->
   missing_items (w_fs w) parent items = [] ->
   run game_root patch_path w
   = run_at parent patch (patch_id_of patch patch_path)
       (patch_name_of patch patch_path) (printed w (retry_line game_root)))
  /\ (parent <> game_root ->
      forall m' ms',
        missing_items (w_fs w) parent items = m' :: ms' ->
        run game_root patch_path w
        = (printed w (retry_line game_root),
           Raise RuntimeError (root_check_msg parent (m' :: ms'))))
  /\ (parent = game_root ->
      run game_root patch_path w
      = (w, Raise RuntimeError (root_check_msg game_root (m :: ms)))).
Proof.
  intros items parent Hj Hrc Hmiss.
  pose proof (check_root_failed game_root w patch x xs m ms Hrc Hmiss) as Hc.
  fold items parent in Hc.
  destruct (decide (parent <> game_root)) as [Hne|Heq].
  - split; [|split]; [| |contradiction].
    + intros _ Hok. rewrite Hok in Hc. now apply run_reaches_run_at.
    + intros _ m' ms' Hko. rewrite Hko in Hc.
      now apply run_root_raises with (patch := patch).
  - split; [|split]; [contradiction|contradiction|].
    intros _. now apply run_root_raises with (patch := patch).
Qed.

End RunProperties.

(** ** One toggle entry *)

Lemma lstrip_all_space (s : string) : all_space s = true -> lstrip s = "".
Proof.
  induction s as [|c s IH]; simpl; [reflexivity|].
  intros [Hc Hs]%andb_true_iff. rewrite Hc. now apply IH.
Qed.

Lemma py_strip_all_space (s : string) : all_space s = true -> py_strip s = "".
Proof.
  intros Hs. unfold py_strip. rewrite (lstrip_all_space _ Hs). reflexivity.
Qed.

Section EntryProperties.
Context `{Builtins}.

Lemma axis_name_of_absent (v : value) :
  name_absent v = true -> axis_name_of v = None.
Proof.
  destruct v; try reflexivity. simpl. intros Hs.
  now rewrite (py_strip_all_space _ Hs).
Qed.

(** The name the orchestrator hands to the mutator is never empty. *)
Lemma axis_name_of_nonempty (v : value) (s : string) :
  axis_name_of v = Some s -> s <> "".
Proof.
  destruct v; try discriminate. simpl.
  destruct (String.eqb (py_strip s0) "") eqn:E; simpl; [discriminate|].
  intros [= <-] ->. discriminate.
Qed.

Lemma axis_of_spec (d : list (string * value)) :
  axis_of d
  = match coerced_axis d with
    | Some i => Ok i
    | None => Raise RuntimeError (non_integer_axis_msg d)
    end.
Proof. unfold axis_of, coerced_axis, req. now destruct (assoc "axis" d). Qed.

(** An entry of the right type that has its keys is handed to the mutator
    with the coerced index. *)
Lemma toggle_entry_coerced (axes : list loc) (d : list (string * value))
    (i : Z) (field original patched : value) :
  py_eq (dict_get "type" VNone d) (VStr "legacy_axis_field") = true ->
  coerced_axis d = Some i ->
  assoc "field" d = Some field ->
  assoc "original" d = Some original ->
  assoc "patched" d = Some patched ->
  toggle_entry axes (VDict d)
  = toggle_legacy_axis_field axes i (py_str field) original patched
      (axis_name_of (dict_get "axis_name" VNone d)).
Proof.
  intros Ht Ha Hf Ho Hp. unfold toggle_entry. rewrite Ht. simpl.
  rewrite axis_of_spec, Ha. unfold req. rewrite Hf, Ho, Hp. reflexivity.
Qed.

Lemma toggle_entry_not_coerced (axes : list loc) (d : list (string * value))
    (σ : store) :
  py_eq (dict_get "type" VNone d) (VStr "legacy_axis_field") = true ->
  coerced_axis d = None ->
  toggle_entry axes (VDict d) σ
  = (σ, Raise RuntimeError (non_integer_axis_msg d)).
Proof.
  intros Ht Ha. unfold toggle_entry. rewrite Ht. simpl.
  rewrite axis_of_spec, Ha. reflexivity.
Qed.

(** C10. An entry whose [axis_name] is missing, is no string, is the empty
    string or holds white space only is handed to the mutator without an
    expected name.  Whatever the live name of the element, when the index is
    in range, the field is there and the resolver finds a direction, the
    entry is applied and its check label is "axis_name_skipped". *)
Theorem blank_axis_name_skipped (axes : list loc) (d : list (string * value))
    (i : Z) (field original patched : value) :
  name_absent (dict_get "axis_name" VNone d) = true ->
  py_eq (dict_get "type" VNone d) (VStr "legacy_axis_field") = true ->
  coerced_axis d = Some i ->
  assoc "field" d = Some field ->
  assoc "original" d = Some original ->
  assoc "patched" d = Some patched ->
  toggle_entry axes (VDict d)
  = toggle_legacy_axis_field axes i (py_str field) original patched None
  /\ forall σ kv cur new mode,
       0 <= i < Z.of_nat (length axes) ->
       σ (axes !!! Z.to_nat i) = VDict kv ->
       assoc (py_str field) kv = Some cur ->
       toggle_decision cur original patched = Ok (new, mode) ->
       new <> VNone ->
       toggle_entry axes (VDict d) σ
       = (store_set (axes !!! Z.to_nat i)
            (VDict (dict_set (py_str field) new kv)) σ,
          Ok (mode,
              log_line i (dict_get "m_Name" (VStr "") kv) (py_str field)
                cur new,
              "axis_name_skipped")).
Proof.
  intros Hn Ht Ha Hf Ho Hp.
  assert (E : toggle_entry axes (VDict d)
              = toggle_legacy_axis_field axes i (py_str field) original
                  patched None).
  { rewrite (toggle_entry_coerced axes d i field original patched) by assumption.
    now rewrite axis_name_of_absent. }
  split; [exact E|].
  intros σ kv cur new mode Hi Hσ Hc Hd Hnew. rewrite E.
  apply in_range_spec in Hi.
  now rewrite (mutator_ok axes i (py_str field) original patched None σ kv cur
                 new mode Hi Hσ eq_refl Hc Hd Hnew).
Qed.

End EntryProperties.

Section AxisProperties.
Context `{Builtins} `{Host}.

(** C8, as the code has it.  The value of [axis] goes through [int]: when
    the key is missing or [int] raises on the value ([None], a list, an
    object, an infinite or NaN float, a string [int] does not read), the entry
    raises the non-integer-axis [RuntimeError], and so does the run, which
    writes nothing; when [int] accepts the value (an integer, a boolean, a
    finite float, which it truncates toward zero, a string it reads), the
    entry goes to the mutator with the coerced index. *)
Theorem non_integer_axis (d : list (string * value)) :
  py_eq (dict_get "type" VNone d) (VStr "legacy_axis_field") = true ->
  (coerced_axis d = None ->
   (forall axes σ,
      toggle_entry axes (VDict d) σ
      = (σ, Raise RuntimeError (non_integer_axis_msg d)))
   /\ forall game_root patch_path w w1 axes σ1 ms,
        reaches game_root patch_path w w1 axes (VDict d) σ1 ms ->
        run game_root patch_path w
        = (w1, Raise RuntimeError (non_integer_axis_msg d))
        /\ w_fs w1 = w_fs w)
  /\ (forall i field original patched axes,
        coerced_axis d = Some i ->
        assoc "field" d = Some field ->
        assoc "original" d = Some original ->
        assoc "patched" d = Some patched ->
        toggle_entry axes (VDict d)
        = toggle_legacy_axis_field axes i (py_str field) original patched
            (axis_name_of (dict_get "axis_name" VNone d))).
Proof.
  intros Ht. split.
  - intros Ha. split.
    + intros axes σ. now apply toggle_entry_not_coerced.
    + intros game_root patch_path w w1 axes σ1 ms Hreach.
      apply (run_loop_raises _ _ _ _ _ _ _ σ1 _ _ _ Hreach).
      intros post cs ls. apply toggle_loop_raise.
      now apply toggle_entry_not_coerced.
  - intros i field original patched axes. now apply toggle_entry_coerced.
Qed.

End AxisProperties.

(** ** The orchestrator on the concrete host *)

Lemma mixed_directions_abort_witness :
  run DemoHost.game_root DemoHost.mixed_json DemoHost.world0
  = (DemoHost.prepared, Raise RuntimeError mixed_msg)
  /\ w_fs DemoHost.prepared = w_fs DemoHost.world0.
Proof.
  eapply (mixed_directions_abort DemoHost.game_root DemoHost.mixed_json
            DemoHost.world0 DemoHost.prepared Demo.axes DemoHost.entry_revert
            _ _ "applied" "reverted").
  - unfold reaches.
    eexists _, _, _, _, _, _, _, _, _, [DemoHost.entry_apply], [], _, _.
    split; [reflexivity|]. split; [lazy; reflexivity|].
    split; [lazy; reflexivity|].
    split; [reflexivity|]. split; [reflexivity|]. lazy. reflexivity.
  - lazy. reflexivity.
  - discriminate.
Defined.

(** Pointed at [Foo_Data], the run goes on from [/games/Foo]; pointed at
    the root of the file system, it stops at the first check. *)
Lemma root_fallback_witness :
  run DemoHost.data_dir DemoHost.single_json DemoHost.world0
  = run_at DemoHost.game_root
      [("id", VStr "demo"); ("name", VStr "Demo patch");
       ("root_contains", VList [VStr "Foo.exe"]);
       ("file", VStr "globalgamemanagers");
       ("toggle",
        VList [DemoHost.entry (VInt 0) (VFloat F64.one) (VFloat F64.zero)
                 [("axis_name", VStr "Horizontal")]])]
      "demo" "Demo patch"
      (printed DemoHost.world0 (retry_line DemoHost.data_dir))
  /\ run DemoHost.fs_root DemoHost.single_json DemoHost.world0
     = (DemoHost.world0,
        Raise RuntimeError (root_check_msg DemoHost.fs_root ["Foo.exe"])).
Proof.
  split.
  - exact (proj1 (root_fallback DemoHost.data_dir DemoHost.single_json
                    DemoHost.world0 _ (VStr "Foo.exe") [] "Foo.exe" []
                    eq_refl eq_refl eq_refl)
             ltac:(discriminate) eq_refl).
  - exact (proj2 (proj2 (root_fallback DemoHost.fs_root DemoHost.single_json
                           DemoHost.world0 _ (VStr "Foo.exe") [] "Foo.exe" []
                           eq_refl eq_refl eq_refl))
             eq_refl).
Defined.

(** An [axis] of [None] is refused, by the entry and by the run; an [axis]
    of 1.5 goes to the mutator as index 1. *)
Lemma non_integer_axis_witness :
  toggle_entry Demo.axes DemoHost.entry_null_axis Demo.store0
  = (Demo.store0,
     Raise RuntimeError "Toggle entry has non-integer 'axis': None")
  /\ (run DemoHost.game_root DemoHost.null_axis_json DemoHost.world0
      = (DemoHost.prepared,
         Raise RuntimeError "Toggle entry has non-integer 'axis': None")
      /\ w_fs DemoHost.prepared = w_fs DemoHost.world0)
  /\ toggle_entry Demo.axes DemoHost.entry_fractional
     = toggle_legacy_axis_field Demo.axes 1 "sensitivity" (VFloat F64.one)
         (VFloat F64.zero) None.
Proof.
  pose proof (non_integer_axis
                [("type", VStr "legacy_axis_field"); ("axis", VNone);
                 ("field", VStr "sensitivity"); ("original", VFloat F64.one);
                 ("patched", VFloat F64.zero)] eq_refl) as [Hnone _].
  destruct (Hnone eq_refl) as [Hentry Hrun].
  split; [exact (Hentry Demo.axes Demo.store0)|]. split.
  - eapply (Hrun DemoHost.game_root DemoHost.null_axis_json DemoHost.world0
              DemoHost.prepared Demo.axes Demo.store0 None).
    unfold reaches.
    eexists _, _, _, _, _, _, _, _, _, [], [], _, _.
    split; [reflexivity|]. split; [lazy; reflexivity|].
    split; [lazy; reflexivity|].
    split; [reflexivity|]. split; reflexivity.
  - exact (proj2 (non_integer_axis
                    [("type", VStr "legacy_axis_field");
                     ("axis", VFloat DemoHost.three_halves);
                     ("field", VStr "sensitivity");
                     ("original", VFloat F64.one);
                     ("patched", VFloat F64.zero)] eq_refl)
             1 (VStr "sensitivity") (VFloat F64.one) (VFloat F64.zero)
             Demo.axes eq_refl eq_refl eq_refl eq_refl).
Defined.

(** A patch whose only entry has the axis 1.5, which is no integer, runs to
    the end: [int] truncates it to 1, the entry is applied to the element at
    index 1 and the asset is written. *)
Lemma fractional_axis_is_coerced :
  DemoHost.three_halves = S754_finite false 6755399441055744 (-52)
  /\ F64.Z_eqb 1 DemoHost.three_halves = false
  /\ (let call := toggle_entry Demo.axes DemoHost.entry_fractional Demo.store0 in
      direction (snd call) = Some "applied"
      /\ field_of (fst call) 1%nat "sensitivity" = Some (VFloat F64.zero)
      /\ field_of (fst call) 0%nat "sensitivity" = Some (VFloat F64.one))
  /\ (let done :=
        run DemoHost.game_root DemoHost.fractional_json DemoHost.world0 in
      snd done = Ok tt
      /\ DemoHost.lookup_file DemoHost.asset_path (w_fs (fst done))
         = Some (DemoHost.Asset
                   [(VStr "Other", VDict []);
                    (VStr "InputManager",
                     VDict
                       [("m_Axes",
                         VList
                           [Demo.horizontal;
                            VDict [("m_Name", VStr "Vertical");
                                   ("sensitivity", VFloat F64.zero);
                                   ("snap", VBool true)]])])])).
Proof. vm_compute. repeat split. Qed.

(** An entry whose [axis_name] is two spaces is applied to the element
    named "Horizontal" and reports that the name check was skipped. *)
Lemma blank_axis_name_skipped_witness :
  toggle_entry Demo.axes
    (DemoHost.entry (VInt 0) (VFloat F64.one) (VFloat F64.zero)
       [("axis_name", VStr "  ")])
    Demo.store0
  = (store_set 0%nat
       (VDict [("m_Name", VStr "Horizontal"); ("sensitivity", VFloat F64.zero);
               ("snap", VBool true)])
       Demo.store0,
     Ok ("applied",
         log_line 0 (VStr "Horizontal") "sensitivity" (VFloat F64.one)
           (VFloat F64.zero),
         "axis_name_skipped")).
Proof.
  exact (proj2 (blank_axis_name_skipped Demo.axes
                  [("type", VStr "legacy_axis_field"); ("axis", VInt 0);
                   ("field", VStr "sensitivity"); ("original", VFloat F64.one);
                   ("patched", VFloat F64.zero); ("axis_name", VStr "  ")]
                  0 (VStr "sensitivity") (VFloat F64.one) (VFloat F64.zero)
                  eq_refl eq_refl eq_refl eq_refl eq_refl eq_refl)
           Demo.store0
           [("m_Name", VStr "Horizontal"); ("sensitivity", VFloat F64.one);
            ("snap", VBool true)]
           (VFloat F64.one) (VFloat F64.zero) "applied"
           ltac:(simpl; lia) eq_refl eq_refl eq_refl ltac:(discriminate)).
Defined.

(** The end-to-end example of the specification, on the host: a first run
    applies the patch and writes the asset, a second run on the result
    reverts it, and the asset read back is the one the runs started from. *)
Example run_twice :
  let first := run DemoHost.game_root DemoHost.single_json DemoHost.world0 in
  let second := run DemoHost.game_root DemoHost.single_json (fst first) in
  snd first = Ok tt
  /\ List.last (w_out (fst first)) "" = tag ++ "Patch applied OK."
  /\ snd second = Ok tt
  /\ List.last (w_out (fst second)) "" = tag ++ "Patch reverted OK."
  /\ DemoHost.lookup_file DemoHost.asset_path (w_fs (fst second))
     = DemoHost.lookup_file DemoHost.asset_path DemoHost.disk.
Proof. vm_compute. repeat split. Qed.

(** * Further properties *)

(** ** The comparator is commutative and, on finite values, reflexive *)

Lemma abs_binary_round (s s' : bool) (m : positive) (e : Z) :
  SFabs (binary_round F64.prec F64.emax s m e)
  = SFabs (binary_round F64.prec F64.emax s' m e).
Proof.
  unfold binary_round.
  destruct (shl_align m e _) as [mz ez].
  unfold binary_round_aux.
  destruct (shr_fexp F64.prec F64.emax (Z.pos mz) ez loc_Exact) as [mrs' e'].
  destruct (shr_fexp F64.prec F64.emax _ e' loc_Exact) as [mrs'' e''].
  destruct (shr_m mrs''); try reflexivity.
  destruct (e'' <=? F64.emax - F64.prec); reflexivity.
Qed.

Lemma abs_binary_normalize_opp (m e : Z) :
  SFabs (binary_normalize F64.prec F64.emax m e false)
  = SFabs (binary_normalize F64.prec F64.emax (- m) e false).
Proof. destruct m; simpl; try reflexivity; apply abs_binary_round. Qed.

(** [abs(x - y)] and [abs(y - x)] are the same double. *)
Lemma abs_sub_sym (x y : spec_float) :
  F64.abs (F64.sub x y) = F64.abs (F64.sub y x).
Proof.
  unfold F64.abs, F64.sub.
  destruct x as [sx|sx| |sx mx ex], y as [sy|sy| |sy my ey];
    try reflexivity; try (destruct sx, sy; reflexivity).
  unfold SFsub. rewrite (Z.min_comm ey ex).
  rewrite abs_binary_normalize_opp. f_equal. f_equal. lia.
Qed.

Lemma py_float_fits (v : value) :
  is_number v = true -> fits v = true -> exists f, py_float v = Ok f.
Proof.
  destruct v; try discriminate; simpl; intros _.
  - destruct (F64.of_Z z); try discriminate; eauto.
  - eauto.
Qed.

(** [==] is symmetric on two scalars that are not both numbers. *)
Lemma py_eq_sym_scalar (a b : value) :
  is_scalar a = true -> is_scalar b = true ->
  is_number a && is_number b = false ->
  py_eq a b = py_eq b a.
Proof.
  destruct a as [|x|x|x|x|x|x], b as [|y|y|y|y|y|y];
    try discriminate; try reflexivity; intros _ _ _; simpl.
  - now destruct x, y.
  - apply Z.eqb_sym.
  - apply Z.eqb_sym.
  - apply String.eqb_sym.
Qed.

(** X1. On scalars, with every integer operand within the range of a
    double, [equal(a, b)] and [equal(b, a)] are the same answer: the
    comparison does not depend on the order of its operands. *)
Theorem equal_sym (a b : value) :
  is_scalar a = true -> is_scalar b = true ->
  fits a = true -> fits b = true ->
  equal a b = equal b a.
Proof.
  intros Sa Sb Fa Fb. unfold equal.
  rewrite (andb_comm (is_number b)).
  destruct (is_number a && is_number b) eqn:N.
  - apply andb_true_iff in N as [Na Nb].
    destruct (py_float_fits a Na Fa) as [fa Ea].
    destruct (py_float_fits b Nb Fb) as [fb Eb].
    rewrite Ea, Eb. simpl. rewrite (abs_sub_sym fb fa).
    now destruct (F64.isfinite fa), (F64.isfinite fb).
  - f_equal. now apply py_eq_sym_scalar.
Qed.

Lemma equal_sym_witness :
  equal (VFloat F64.one) (VInt 2) = equal (VInt 2) (VFloat F64.one)
  /\ equal (VBool true) (VInt 1) = equal (VInt 1) (VBool true).
Proof.
  split.
  - exact (equal_sym (VFloat F64.one) (VInt 2) eq_refl eq_refl eq_refl eq_refl).
  - exact (equal_sym (VBool true) (VInt 1) eq_refl eq_refl eq_refl eq_refl).
Defined.

(** Without the bound the order matters: the conversion that raises is
    reached only when the operand before it is finite. *)
Example equal_order_matters_beyond_range :
  equal (VFloat F64.inf) (VInt (10 ^ 400)) = Ok false
  /\ raised (equal (VInt (10 ^ 400)) (VFloat F64.inf)) = Some OverflowError.
Proof. split; reflexivity. Qed.

(** X2. A scalar tolerantly equals itself exactly when, being a number, it
    converts to a finite double: every string, boolean, [None], finite float
    and integer within range does; infinities, NaN and integers beyond the
    range of a double do not. *)
Theorem equal_self (v : value) :
  is_scalar v = true ->
  (equal v v = Ok true <->
   (is_number v = true ->
    exists f, py_float v = Ok f /\ F64.isfinite f = true)).
Proof.
  intros Sv. destruct (is_number v) eqn:N.
  - split.
    + intros E _. unfold equal in E. rewrite N in E. simpl in E.
      unfold mbind, result_mbind in E.
      destruct (py_float v) as [f|c m]; simpl in E; [|discriminate].
      exists f. split; [reflexivity|].
      destruct (F64.isfinite f); [reflexivity|discriminate].
    + intros Hf. destruct (Hf eq_refl) as (f & Ef & Ff).
      now apply equal_refl_number with f.
  - split; [discriminate|]. intros _.
    destruct v; try discriminate.
    + reflexivity.
    + apply equal_refl_bool.
    + apply equal_refl_str.
Qed.

Lemma equal_self_witness :
  equal (VInt 7) (VInt 7) = Ok true /\ equal (VStr "snap") (VStr "snap") = Ok true.
Proof.
  split.
  - apply (proj2 (equal_self (VInt 7) eq_refl)). intros _.
    eexists. split; reflexivity.
  - apply (proj2 (equal_self (VStr "snap") eq_refl)). discriminate.
Defined.

(** ** What a call of the mutator returns, and how it fails *)

Lemma toggle_decision_inv (cur original patched new : value) (mode : string) :
  toggle_decision cur original patched = Ok (new, mode) ->
  (equal cur original = Ok true /\ new = patched /\ mode = "applied")
  \/ (equal cur original = Ok false /\ equal cur patched = Ok true
      /\ new = original /\ mode = "reverted")
  \/ (equal cur original = Ok false /\ equal cur patched = Ok false
      /\ new = VNone /\ mode = "unknown").
Proof.
  unfold toggle_decision, mbind, result_mbind.
  destruct (equal cur original) as [[|]|c m]; simpl; [| |discriminate].
  - intros [= <- <-]. auto.
  - destruct (equal cur patched) as [[|]|c m]; simpl; [| |discriminate];
      intros [= <- <-]; auto 8.
Qed.

Section MutatorOutcome.
Context `{Builtins}.

(** A call that returns found the live value in one of the two states and
    wrote the value of the other. *)
Lemma mutator_ok_cases (axes : list loc) (i : Z) (field : string)
    (original patched : value) (axis_name : option string) (σ σ' : store)
    (mode line check : string) :
  toggle_legacy_axis_field axes i field original patched axis_name σ
  = (σ', Ok (mode, line, check)) ->
  exists cur,
    field_of σ (axes !!! Z.to_nat i) field = Some cur /\
    ((mode = "applied" /\ equal cur original = Ok true /\
      field_of σ' (axes !!! Z.to_nat i) field = Some patched)
     \/ (mode = "reverted" /\ equal cur original = Ok false /\
         equal cur patched = Ok true /\
         field_of σ' (axes !!! Z.to_nat i) field = Some original)).
Proof.
  intros E.
  apply mutator_ok_inv in E
    as (_ & kv & cur & new & Hσ & _ & Hf & Hd & Hnew & -> & _).
  exists cur. split; [unfold field_of; now rewrite Hσ|].
  apply toggle_decision_inv in Hd
    as [(E1 & -> & ->)|[(E1 & E2 & -> & ->)|(_ & _ & -> & _)]].
  - left. repeat split; trivial. apply field_of_written.
  - right. repeat split; trivial. apply field_of_written.
  - congruence.
Qed.

(** X3. The direction a call returns is "applied" or "reverted", never
    "unknown": "applied" when the live value was within tolerance of
    [original], and the field then holds [patched]; "reverted" when it was
    within tolerance of [patched] and not of [original], and the field then
    holds [original]. *)
Theorem mutator_direction (axes : list loc) (i : Z) (field : string)
    (original patched : value) (axis_name : option string) (σ σ' : store)
    (mode line check : string) :
  toggle_legacy_axis_field axes i field original patched axis_name σ
  = (σ', Ok (mode, line, check)) ->
  exists cur,
    field_of σ (axes !!! Z.to_nat i) field = Some cur /\
    ((mode = "applied" /\ equal cur original = Ok true /\
      field_of σ' (axes !!! Z.to_nat i) field = Some patched)
     \/ (mode = "reverted" /\ equal cur original = Ok false /\
         equal cur patched = Ok true /\
         field_of σ' (axes !!! Z.to_nat i) field = Some original)).
Proof. apply mutator_ok_cases. Qed.

(** X4. A patch entry whose [original] and [patched] are the same value
    never reverts: every call that returns has the direction "applied" and
    leaves that value in the field. *)
Theorem same_values_always_applied (axes : list loc) (i : Z) (field : string)
    (v : value) (axis_name : option string) (σ σ' : store)
    (mode line check : string) :
  toggle_legacy_axis_field axes i field v v axis_name σ
  = (σ', Ok (mode, line, check)) ->
  mode = "applied" /\ field_of σ' (axes !!! Z.to_nat i) field = Some v.
Proof.
  intros E.
  apply mutator_ok_cases in E as (cur & _ & [(-> & _ & Hw)|(_ & E1 & E2 & _)]).
  - now split.
  - congruence.
Qed.

(** X5. A field that the indexed element does not have makes the call raise
    the field-not-present [RuntimeError], after the index and the name have
    been checked; the store is the one the call was given. *)
Theorem field_absent_rejected (axes : list loc) (i : Z) (field : string)
    (original patched : value) (axis_name : option string) (σ : store)
    (kv : list (string * value)) :
  0 <= i < Z.of_nat (length axes) ->
  σ (axes !!! Z.to_nat i) = VDict kv ->
  name_ok kv axis_name = true ->
  assoc field kv = None ->
  toggle_legacy_axis_field axes i field original patched axis_name σ
  = (σ, Raise RuntimeError
          ("Field " ++ py_repr (VStr field) ++ " not present on axis["
           ++ str_of_Z i ++ "] (name="
           ++ py_repr (dict_get "m_Name" (VStr "") kv) ++ ")")).
Proof.
  intros Hi Hσ Hn Hf. unfold toggle_legacy_axis_field.
  replace ((i <? 0) || (i >=? Z.of_nat (length axes))) with false by lia.
  unfold name_ok in Hn. apply negb_true_iff in Hn.
  st_unfold. rewrite Hσ. simpl. rewrite Hn.
  unfold dict_mem. now rewrite Hf.
Qed.

(** X6. A live value that is within tolerance of neither [original] nor
    [patched] makes the call raise the unknown-state [RuntimeError], which
    tells the three values; the store is the one the call was given. *)
Theorem unknown_state_rejected (axes : list loc) (i : Z) (field : string)
    (original patched : value) (axis_name : option string) (σ : store)
    (kv : list (string * value)) (cur : value) :
  0 <= i < Z.of_nat (length axes) ->
  σ (axes !!! Z.to_nat i) = VDict kv ->
  name_ok kv axis_name = true ->
  assoc field kv = Some cur ->
  equal cur original = Ok false ->
  equal cur patched = Ok false ->
  toggle_legacy_axis_field axes i field original patched axis_name σ
  = (σ, Raise RuntimeError
          ("Unknown state for axis[" ++ str_of_Z i ++ "] "
           ++ py_repr (dict_get "m_Name" (VStr "") kv) ++ "." ++ field
           ++ ": current=" ++ py_repr cur
           ++ ", expected " ++ py_repr original
           ++ " or " ++ py_repr patched)).
Proof.
  intros Hi Hσ Hn Hf Eo Ep. unfold toggle_legacy_axis_field.
  replace ((i <? 0) || (i >=? Z.of_nat (length axes))) with false by lia.
  unfold name_ok in Hn. apply negb_true_iff in Hn.
  assert (Hm : dict_mem field kv = true) by (unfold dict_mem; now rewrite Hf).
  assert (Hc : dict_get field VNone kv = cur) by (unfold dict_get; now rewrite Hf).
  st_unfold. rewrite Hσ. simpl. rewrite Hn, Hm, Hc. simpl.
  now rewrite (toggle_decision_unknown _ _ _ Eo Ep).
Qed.

(** X7. An exception of the comparison leaves the mutator as it is: an
    integer beyond the range of a double, in the patch or in the file, makes
    the call raise [OverflowError], not the unknown-state error, and the
    store is the one the call was given. *)
Theorem comparison_error_propagates (axes : list loc) (i : Z) (field : string)
    (original patched : value) (axis_name : option string) (σ : store)
    (kv : list (string * value)) (cur : value) (c : exn_class) (msg : string) :
  0 <= i < Z.of_nat (length axes) ->
  σ (axes !!! Z.to_nat i) = VDict kv ->
  name_ok kv axis_name = true ->
  assoc field kv = Some cur ->
  equal cur original = Raise c msg
  \/ (equal cur original = Ok false /\ equal cur patched = Raise c msg) ->
  toggle_legacy_axis_field axes i field original patched axis_name σ
  = (σ, Raise c msg).
Proof.
  intros Hi Hσ Hn Hf He. unfold toggle_legacy_axis_field.
  replace ((i <? 0) || (i >=? Z.of_nat (length axes))) with false by lia.
  unfold name_ok in Hn. apply negb_true_iff in Hn.
  assert (Hm : dict_mem field kv = true) by (unfold dict_mem; now rewrite Hf).
  assert (Hc : dict_get field VNone kv = cur) by (unfold dict_get; now rewrite Hf).
  st_unfold. rewrite Hσ. simpl. rewrite Hn, Hm, Hc. simpl.
  unfold toggle_decision, mbind, result_mbind.
  destruct He as [E|[E1 E2]].
  - now rewrite E.
  - rewrite E1. simpl. now rewrite E2.
Qed.

End MutatorOutcome.

Lemma mutator_direction_witness :
  exists cur,
    field_of Demo.store0 0%nat "sensitivity" = Some cur /\
    equal cur (VFloat F64.one) = Ok true /\
    field_of
      (fst (toggle_legacy_axis_field Demo.axes 0 "sensitivity"
              (VFloat F64.one) (VFloat F64.zero) None Demo.store0))
      0%nat "sensitivity"
    = Some (VFloat F64.zero).
Proof.
  destruct (mutator_direction Demo.axes 0 "sensitivity" (VFloat F64.one)
              (VFloat F64.zero) None Demo.store0 _ "applied" _ _ eq_refl)
    as (cur & Hc & [(_ & He & Hw)|(Hm & _)]).
  - exists cur. repeat split; assumption.
  - discriminate Hm.
Defined.

Lemma same_values_always_applied_witness :
  direction
    (snd (toggle_legacy_axis_field Demo.axes 0 "snap" (VBool true)
            (VBool true) None Demo.store0))
  = Some "applied"
  /\ field_of
       (fst (toggle_legacy_axis_field Demo.axes 0 "snap" (VBool true)
               (VBool true) None Demo.store0))
       0%nat "snap"
     = Some (VBool true).
Proof.
  destruct (same_values_always_applied Demo.axes 0 "snap" (VBool true) None
              Demo.store0 _ "applied" _ _ eq_refl) as [_ Hw].
  split; [reflexivity | exact Hw].
Defined.

Lemma field_absent_rejected_witness :
  toggle_legacy_axis_field Demo.axes 0 "gravity" (VFloat F64.one)
    (VFloat F64.zero) (Some "Horizontal") Demo.store0
  = (Demo.store0,
     Raise RuntimeError
       "Field 'gravity' not present on axis[0] (name='Horizontal')").
Proof.
  exact (field_absent_rejected Demo.axes 0 "gravity" (VFloat F64.one)
           (VFloat F64.zero) (Some "Horizontal") Demo.store0
           [("m_Name", VStr "Horizontal"); ("sensitivity", VFloat F64.one);
            ("snap", VBool true)]
           ltac:(simpl; lia) eq_refl eq_refl eq_refl).
Defined.

Lemma unknown_state_rejected_witness :
  toggle_legacy_axis_field Demo.axes 0 "m_Name" (VStr "Strafe")
    (VStr "Turn") None Demo.store0
  = (Demo.store0,
     Raise RuntimeError
       "Unknown state for axis[0] 'Horizontal'.m_Name: current='Horizontal', expected 'Strafe' or 'Turn'").
Proof.
  exact (unknown_state_rejected Demo.axes 0 "m_Name" (VStr "Strafe")
           (VStr "Turn") None Demo.store0
           [("m_Name", VStr "Horizontal"); ("sensitivity", VFloat F64.one);
            ("snap", VBool true)]
           (VStr "Horizontal")
           ltac:(simpl; lia) eq_refl eq_refl eq_refl eq_refl eq_refl).
Defined.

Lemma comparison_error_propagates_witness :
  toggle_legacy_axis_field Demo.axes 0 "sensitivity" (VInt (10 ^ 400))
    (VFloat F64.zero) None Demo.store0
  = (Demo.store0, Raise OverflowError "int too large to convert to float").
Proof.
  exact (comparison_error_propagates Demo.axes 0 "sensitivity"
           (VInt (10 ^ 400)) (VFloat F64.zero) None Demo.store0
           [("m_Name", VStr "Horizontal"); ("sensitivity", VFloat F64.one);
            ("snap", VBool true)]
           (VFloat F64.one) OverflowError "int too large to convert to float"
           ltac:(simpl; lia) eq_refl eq_refl eq_refl
           ltac:(left; reflexivity)).
Defined.

(** ** How an entry is validated *)

Lemma all_space_lstrip (s : string) : all_space (lstrip s) = all_space s.
Proof.
  induction s as [|c s IH]; simpl; [reflexivity|].
  destruct (py_isspace c) eqn:E; simpl; [exact IH | now rewrite E].
Qed.

Lemma all_space_rev_app (s1 s2 : string) :
  all_space (String.rev_app s1 s2) = all_space s1 && all_space s2.
Proof.
  revert s2. induction s1 as [|c s1 IH]; intros s2; simpl; [reflexivity|].
  rewrite IH. simpl. now destruct (py_isspace c), (all_space s1).
Qed.

Lemma all_space_rev (s : string) : all_space (String.rev s) = all_space s.
Proof. unfold String.rev. rewrite all_space_rev_app. simpl. apply andb_true_r. Qed.

(** Stripping leaves nothing exactly when there was white space only. *)
Lemma py_strip_empty (s : string) :
  String.eqb (py_strip s) "" = all_space s.
Proof.
  assert (E : all_space (py_strip s) = all_space s).
  { unfold py_strip.
    now rewrite all_space_rev, all_space_lstrip, all_space_rev, all_space_lstrip. }
  destruct (py_strip s) eqn:Es; simpl.
  - now rewrite <- E.
  - destruct (all_space s) eqn:Ea; [|reflexivity].
    pose proof (py_strip_all_space s Ea) as Hs. congruence.
Qed.

Section EntryValidation.
Context `{Builtins}.

(** X8. The [axis_name] of an entry reaches the mutator exactly when it is
    a string with a character that is not white space, and it reaches it as
    it is written, white space around it included. *)
Theorem axis_name_of_spec (v : value) (s : string) :
  axis_name_of v = Some s <-> v = VStr s /\ all_space s = false.
Proof.
  destruct v; simpl; try (split; [discriminate | intros [? _]; discriminate]).
  rewrite py_strip_empty.
  destruct (all_space s0) eqn:E; simpl; split.
  - discriminate.
  - intros [[= ->] E']. congruence.
  - intros [= ->]. now split.
  - intros [[= ->] _]. reflexivity.
Qed.

(** A name with a space after it is handed on with the space, and then
    differs from the live name. *)
Example axis_name_is_not_stripped :
  axis_name_of (VStr "Horizontal ") = Some "Horizontal "
  /\ raised
       (snd (toggle_entry Demo.axes
               (VDict [("type", VStr "legacy_axis_field"); ("axis", VInt 0);
                       ("field", VStr "sensitivity");
                       ("original", VFloat F64.one);
                       ("patched", VFloat F64.zero);
                       ("axis_name", VStr "Horizontal ")])
               Demo.store0))
     = Some RuntimeError.
Proof. split; reflexivity. Qed.

(** An entry that returns is a call of the mutator that returns. *)
Lemma toggle_entry_ok_inv (axes : list loc) (t : value) (σ σ' : store)
    (mode line check : string) :
  toggle_entry axes t σ = (σ', Ok (mode, line, check)) ->
  exists i field original patched axis_name,
    toggle_legacy_axis_field axes i field original patched axis_name σ
    = (σ', Ok (mode, line, check)).
Proof.
  unfold toggle_entry. destruct t; try discriminate.
  destruct (negb (py_eq _ _)); [discriminate|].
  st_unfold.
  destruct (axis_of kv) as [i|]; [|discriminate].
  destruct (req kv "field") as [f|]; [|discriminate].
  destruct (req kv "original") as [o|]; [|discriminate].
  destruct (req kv "patched") as [p|]; [|discriminate].
  intros E. eauto 8.
Qed.

(** An entry that raises has written nothing. *)
Lemma toggle_entry_raise_inv (axes : list loc) (t : value) (σ σ' : store)
    (c : exn_class) (msg : string) :
  toggle_entry axes t σ = (σ', Raise c msg) -> σ' = σ.
Proof.
  unfold toggle_entry. destruct t; try (now intros [= <- _]).
  destruct (negb (py_eq _ _)); [now intros [= <- _]|].
  st_unfold.
  destruct (axis_of kv) as [i|]; [|now intros [= <- _]].
  destruct (req kv "field") as [f|]; [|now intros [= <- _]].
  destruct (req kv "original") as [o|]; [|now intros [= <- _]].
  destruct (req kv "patched") as [p|]; [|now intros [= <- _]].
  apply mutator_raise_inv.
Qed.

(** X9. The checks of an entry, in their order: an entry that is no object
    is refused as such; then one whose [type] is not "legacy_axis_field";
    then, the axis being an index, one that lacks [field], [original] or
    [patched], with the first missing key in the message.  None of them
    touches the store. *)
Theorem entry_validation (axes : list loc) (σ : store) :
  (forall t,
     keys_of t = None ->
     toggle_entry axes t σ
     = (σ, Raise RuntimeError ("Bad toggle entry (not object): " ++ py_repr t)))
  /\ (forall d,
        py_eq (dict_get "type" VNone d) (VStr "legacy_axis_field") = false ->
        toggle_entry axes (VDict d) σ
        = (σ, Raise RuntimeError
                ("Unsupported toggle type: "
                 ++ py_repr (dict_get "type" VNone d))))
  /\ (forall d i k,
        py_eq (dict_get "type" VNone d) (VStr "legacy_axis_field") = true ->
        coerced_axis d = Some i ->
        first_missing d = Some k ->
        toggle_entry axes (VDict d) σ
        = (σ, Raise RuntimeError
                ("Toggle entry missing required key: " ++ py_repr (VStr k)))).
Proof.
  split; [|split].
  - intros t Ht. destruct t; try reflexivity. discriminate.
  - intros d Ht. unfold toggle_entry. now rewrite Ht.
  - intros d i k Ht Ha Hk. unfold toggle_entry. rewrite Ht. simpl.
    rewrite axis_of_spec, Ha. st_unfold. unfold req.
    unfold first_missing, dict_mem in Hk. simpl in Hk.
    destruct (assoc "field" d); simpl in Hk; [|now injection Hk as <-].
    destruct (assoc "original" d); simpl in Hk; [|now injection Hk as <-].
    destruct (assoc "patched" d); simpl in Hk; [discriminate|].
    now injection Hk as <-.
Qed.

End EntryValidation.

Lemma entry_validation_witness :
  toggle_entry Demo.axes (VStr "sensitivity") Demo.store0
  = (Demo.store0,
     Raise RuntimeError "Bad toggle entry (not object): 'sensitivity'")
  /\ toggle_entry Demo.axes
       (VDict [("type", VStr "axis_field"); ("axis", VInt 0)]) Demo.store0
     = (Demo.store0,
        Raise RuntimeError "Unsupported toggle type: 'axis_field'")
  /\ toggle_entry Demo.axes
       (VDict [("type", VStr "legacy_axis_field"); ("axis", VInt 0);
               ("field", VStr "sensitivity"); ("patched", VFloat F64.zero)])
       Demo.store0
     = (Demo.store0,
        Raise RuntimeError "Toggle entry missing required key: 'original'").
Proof.
  destruct (entry_validation Demo.axes Demo.store0) as (H1 & H2 & H3).
  split; [|split].
  - exact (H1 (VStr "sensitivity") eq_refl).
  - exact (H2 [("type", VStr "axis_field"); ("axis", VInt 0)] eq_refl).
  - exact (H3 [("type", VStr "legacy_axis_field"); ("axis", VInt 0);
               ("field", VStr "sensitivity"); ("patched", VFloat F64.zero)]
             0 "original" eq_refl eq_refl eq_refl).
Defined.

(** ** What the loop keeps *)

Lemma keys_of_store_set (σ : store) (l l' : loc) (field : string)
    (new : value) (kv : list (string * value)) :
  σ l = VDict kv -> dict_mem field kv = true ->
  keys_of (store_set l (VDict (dict_set field new kv)) σ l') = keys_of (σ l').
Proof.
  intros Hσ Hm. unfold store_set.
  destruct (Nat.eqb l' l) eqn:E; [|reflexivity].
  apply Nat.eqb_eq in E. subst l'. rewrite Hσ. simpl.
  now rewrite keys_dict_set.
Qed.

Section LoopInvariants.
Context `{Builtins}.

(** A call of the mutator keeps the keys of every object and every object
    the list does not hold. *)
Lemma mutator_shape (axes : list loc) (i : Z) (field : string)
    (original patched : value) (axis_name : option string) (σ σ' : store)
    (r : result (string * string * string)) :
  toggle_legacy_axis_field axes i field original patched axis_name σ = (σ', r) ->
  forall l, keys_of (σ' l) = keys_of (σ l) /\ (l ∉ axes -> σ' l = σ l).
Proof.
  destruct r as [[[mode line] check]|c msg]; intros E l.
  - apply mutator_ok_inv in E
      as (Hr & kv & cur & new & Hσ & _ & Hf & _ & _ & -> & _).
    split.
    + apply keys_of_store_set; [exact Hσ|]. unfold dict_mem. now rewrite Hf.
    + intros Hl. apply store_set_ne. intros ->. apply Hl.
      apply in_range_spec in Hr.
      apply list_elem_of_lookup. exists (Z.to_nat i).
      apply list_lookup_lookup_total_lt. lia.
  - apply mutator_raise_inv in E. now subst.
Qed.

Lemma toggle_entry_shape (axes : list loc) (t : value) (σ σ' : store)
    (r : result (string * string * string)) :
  toggle_entry axes t σ = (σ', r) ->
  forall l, keys_of (σ' l) = keys_of (σ l) /\ (l ∉ axes -> σ' l = σ l).
Proof.
  destruct r as [[[mode line] check]|c msg]; intros E.
  - apply toggle_entry_ok_inv in E as (i & f & o & p & n & E).
    exact (mutator_shape _ _ _ _ _ _ _ _ _ E).
  - apply toggle_entry_raise_inv in E. now subst.
Qed.

(** X10. Whether it returns or raises, the loop leaves every object with the
    keys it had, in their order, and leaves alone every object that is not
    in the axis list: it adds no field, removes none, and writes nowhere
    else. *)
Theorem loop_keeps_shape (axes : list loc) (toggles : list value)
    (ms : option string) (cs ls : list string) (σ σ' : store)
    (r : result (option string * list string * list string)) :
  toggle_loop axes toggles ms cs ls σ = (σ', r) ->
  forall l, keys_of (σ' l) = keys_of (σ l) /\ (l ∉ axes -> σ' l = σ l).
Proof.
  revert ms cs ls σ.
  induction toggles as [|t rest IH]; intros ms cs ls σ; simpl.
  - st_unfold. now intros [= <- _].
  - st_unfold.
    destruct (toggle_entry axes t σ) as [σa [[[mode line] check]|c msg]] eqn:Et.
    + pose proof (toggle_entry_shape _ _ _ _ _ Et) as Ha.
      assert (Hstep : forall ms',
                 toggle_loop axes rest ms' (cs ++ [check]) (ls ++ [line]) σa
                 = (σ', r) ->
                 forall l, keys_of (σ' l) = keys_of (σ l)
                           /\ (l ∉ axes -> σ' l = σ l)).
      { intros ms' E l. destruct (IH _ _ _ _ E l) as [K F].
        destruct (Ha l) as [Ka Fa]. split; [congruence|].
        intros Hl. rewrite (F Hl). now apply Fa. }
      destruct ms as [seen|].
      * destruct (negb (String.eqb seen mode)).
        -- intros [= <- _]. exact Ha.
        -- apply Hstep.
      * apply Hstep.
    + intros [= <- _]. exact (toggle_entry_shape _ _ _ _ _ Et).
Qed.

(** What a loop that returns has done, from any state of its variables. *)
Lemma toggle_loop_ok_inv (axes : list loc) (toggles : list value)
    (ms0 ms : option string) (cs0 ls0 cs ls : list string) (σ σ' : store) :
  toggle_loop axes toggles ms0 cs0 ls0 σ = (σ', Ok (ms, cs, ls)) ->
  length cs = (length cs0 + length toggles)%nat /\
  length ls = (length ls0 + length toggles)%nat /\
  (forall m0, ms0 = Some m0 -> ms = Some m0) /\
  (toggles = [] -> ms = ms0) /\
  forall pre t post,
    toggles = (pre ++ t :: post)%list ->
    exists m σ1 σ2 line check ms1 cs1 ls1,
      ms = Some m /\
      toggle_loop axes pre ms0 cs0 ls0 σ = (σ1, Ok (ms1, cs1, ls1)) /\
      toggle_entry axes t σ1 = (σ2, Ok (m, line, check)).
Proof.
  revert ms0 cs0 ls0 σ.
  induction toggles as [|t0 rest IH]; intros ms0 cs0 ls0 σ; simpl.
  - st_unfold. intros [= <- <- <- <-].
    repeat split; try lia; trivial.
    intros pre t post E. now destruct pre.
  - st_unfold.
    destruct (toggle_entry axes t0 σ) as [σa [[[mode line] check]|c msg]] eqn:Et;
      [|discriminate].
    assert (Hstep : forall ms0',
               (forall m0, ms0 = Some m0 -> ms0' = Some m0) ->
               ms0' = Some mode ->
               toggle_loop axes rest ms0' (cs0 ++ [check]) (ls0 ++ [line]) σa
               = (σ', Ok (ms, cs, ls)) ->
               (forall pre,
                  toggle_loop axes pre ms0' (cs0 ++ [check]) (ls0 ++ [line]) σa
                  = toggle_loop axes (t0 :: pre) ms0 cs0 ls0 σ) ->
               length cs = (length cs0 + S (length rest))%nat /\
               length ls = (length ls0 + S (length rest))%nat /\
               (forall m0, ms0 = Some m0 -> ms = Some m0) /\
               (t0 :: rest = [] -> ms = ms0) /\
               forall pre t post,
                 t0 :: rest = (pre ++ t :: post)%list ->
                 exists m σ1 σ2 line check ms1 cs1 ls1,
                   ms = Some m /\
                   toggle_loop axes pre ms0 cs0 ls0 σ
                   = (σ1, Ok (ms1, cs1, ls1)) /\
                   toggle_entry axes t σ1 = (σ2, Ok (m, line, check))).
    { intros ms0' Hkeep Hmode E Hunf.
      destruct (IH _ _ _ _ E) as (Lc & Ll & Hm & _ & Hsplit).
      rewrite !length_app in Lc, Ll. simpl in Lc, Ll.
      repeat split; try lia.
      - intros m0 E0. apply Hm. now apply Hkeep.
      - discriminate.
      - intros pre t post Epre. destruct pre as [|t1 pre]; simpl in Epre.
        + injection Epre as <- <-.
          exists mode, σ, σa, line, check, ms0, cs0, ls0.
          split; [now apply Hm|]. split; [reflexivity|exact Et].
        + injection Epre as <- ->.
          destruct (Hsplit pre t post eq_refl)
            as (m & σ1 & σ2 & line' & check' & ms1 & cs1 & ls1 & Em & Ep & Ee).
          exists m, σ1, σ2, line', check', ms1, cs1, ls1.
          split; [exact Em|]. split; [|exact Ee].
          now rewrite <- Hunf. }
    destruct ms0 as [seen|].
    + destruct (String.eqb seen mode) eqn:Es; simpl; [|discriminate].
      apply String.eqb_eq in Es. subst seen.
      intros E. apply (Hstep (Some mode)); trivial.
      intros pre. simpl. st_unfold. rewrite Et.
      now rewrite String.eqb_refl.
    + intros E. apply (Hstep (Some mode)); trivial; [discriminate|].
      intros pre. simpl. st_unfold. now rewrite Et.
Qed.

(** X11. When the loop of a run returns, every entry has returned the same
    direction, the one the loop returns, each in the store the entries
    before it left; that direction is "applied" or "reverted", and there is
    one check label and one log line for each entry. *)
Theorem loop_agreement (axes : list loc) (toggles : list value)
    (ms : option string) (cs ls : list string) (σ σ' : store) :
  toggle_loop axes toggles None [] [] σ = (σ', Ok (ms, cs, ls)) ->
  length cs = length toggles /\
  length ls = length toggles /\
  (toggles = [] -> ms = None) /\
  forall pre t post,
    toggles = (pre ++ t :: post)%list ->
    exists m σ1 σ2 line check ms1 cs1 ls1,
      ms = Some m /\ (m = "applied" \/ m = "reverted") /\
      toggle_loop axes pre None [] [] σ = (σ1, Ok (ms1, cs1, ls1)) /\
      toggle_entry axes t σ1 = (σ2, Ok (m, line, check)).
Proof.
  intros E. apply toggle_loop_ok_inv in E as (Lc & Ll & _ & Hnil & Hsplit).
  repeat split; trivial.
  intros pre t post Et.
  destruct (Hsplit pre t post Et)
    as (m & σ1 & σ2 & line & check & ms1 & cs1 & ls1 & Em & Ep & Ee).
  exists m, σ1, σ2, line, check, ms1, cs1, ls1.
  repeat split; trivial.
  destruct (toggle_entry_ok_inv _ _ _ _ _ _ _ Ee) as (i & f & o & p & n & Ec).
  apply mutator_ok_cases in Ec as (cur & _ & [(-> & _)|(-> & _)]); auto.
Qed.

End LoopInvariants.

Lemma loop_keeps_shape_witness :
  let σ' :=
    fst (toggle_loop Demo.axes [DemoHost.entry_apply; DemoHost.entry_revert]
           None [] [] Demo.store0) in
  (keys_of (σ' 1%nat) = keys_of (Demo.store0 1%nat)
   /\ keys_of (Demo.store0 1%nat) = Some ["m_Name"; "sensitivity"; "snap"])
  /\ σ' 7%nat = Demo.store0 7%nat.
Proof.
  pose proof (loop_keeps_shape Demo.axes
                [DemoHost.entry_apply; DemoHost.entry_revert] None [] []
                Demo.store0 _ _ eq_refl) as Hshape.
  split; [split|].
  - exact (proj1 (Hshape 1%nat)).
  - reflexivity.
  - apply (proj2 (Hshape 7%nat)). unfold Demo.axes. intros Hin.
    apply elem_of_cons in Hin as [Hin|Hin]; [discriminate|].
    apply elem_of_cons in Hin as [Hin|Hin]; [discriminate|].
    now apply elem_of_nil in Hin.
Defined.

Lemma loop_agreement_witness :
  exists σ1 σ2 line check ms1 cs1 ls1,
    toggle_loop Demo.axes [DemoHost.entry_apply] None [] [] Demo.store0
    = (σ1, Ok (ms1, cs1, ls1)) /\
    toggle_entry Demo.axes
      (DemoHost.entry (VInt 1) (VFloat F64.one) (VFloat F64.zero) []) σ1
    = (σ2, Ok ("applied", line, check)).
Proof.
  eassert (E : toggle_loop Demo.axes
                 [DemoHost.entry_apply;
                  DemoHost.entry (VInt 1) (VFloat F64.one) (VFloat F64.zero) []]
                 None [] [] Demo.store0
               = (_, Ok (Some "applied", _, _))).
  { lazy. reflexivity. }
  destruct (loop_agreement _ _ _ _ _ _ _ E) as (_ & _ & _ & Hsplit).
  destruct (Hsplit [DemoHost.entry_apply]
              (DemoHost.entry (VInt 1) (VFloat F64.one) (VFloat F64.zero) [])
              [] eq_refl)
    as (m & σ1 & σ2 & line & check & ms1 & cs1 & ls1 & Em & _ & Ep & Ee).
  injection Em as <-.
  exists σ1, σ2, line, check, ms1, cs1, ls1. now split.
Defined.

(** ** The root markers and the object graph *)

Lemma filter_nil_Forall {A} (f : A -> bool) (l : list A) :
  List.filter f l = [] <-> Forall (fun x => f x = false) l.
Proof.
  induction l as [|a l IH]; simpl.
  - split; [constructor|reflexivity].
  - destruct (f a) eqn:E; split.
    + discriminate.
    + intros Hall. inversion Hall; congruence.
    + intros Hl. constructor; [exact E|now apply IH].
    + intros Hall. inversion Hall. now apply IH.
Qed.

(** [List.find] returns the first element that passes the test. *)
Lemma find_first {A} (f : A -> bool) (l : list A) :
  match List.find f l with
  | Some a =>
      exists pre post,
        l = (pre ++ a :: post)%list /\ f a = true /\
        Forall (fun x => f x = false) pre
  | None => Forall (fun x => f x = false) l
  end.
Proof.
  induction l as [|a l IH]; simpl; [constructor|].
  destruct (f a) eqn:E.
  - exists [], l. repeat split; [exact E|constructor].
  - destruct (List.find f l) as [b|].
    + destruct IH as (pre & post & -> & Hb & Hpre).
      exists (a :: pre), post. repeat split; [exact Hb|now constructor].
    + now constructor.
Qed.

Section RootAndGraph.
Context `{Builtins} `{Host}.

(** X12. The check of the root markers passes exactly when every marker
    exists under the root (an empty list always passes); when it fails, the
    [RuntimeError] names the markers that are missing, in the order of the
    list, and no other; the world is never changed. *)
Theorem verify_root_contains_spec (root : path) (items : list string)
    (w : world) :
  (verify_root_contains root items w = (w, Ok tt) <->
   Forall (fun x => fs_exists (w_fs w) (path_join root x) = true) items)
  /\ (forall x, In x (missing_items (w_fs w) root items) <->
                In x items /\ fs_exists (w_fs w) (path_join root x) = false)
  /\ (Forall (fun x => fs_exists (w_fs w) (path_join root x) = true) items
      \/ verify_root_contains root items w
         = (w, Raise RuntimeError
                 (root_check_msg root (missing_items (w_fs w) root items)))).
Proof.
  assert (Hnil : missing_items (w_fs w) root items = [] <->
                 Forall (fun x => fs_exists (w_fs w) (path_join root x) = true)
                   items).
  { unfold missing_items. rewrite filter_nil_Forall.
    split; intros Hall; eapply Forall_impl; try exact Hall;
      intros x; simpl; destruct (fs_exists _ _); auto. }
  split; [|split].
  - unfold verify_root_contains.
    destruct (missing_items (w_fs w) root items) eqn:E.
    + split; [intros _; now apply Hnil | reflexivity].
    + split; [discriminate|]. intros Hall. apply Hnil in Hall. discriminate.
  - intros x. unfold missing_items. rewrite filter_In.
    now destruct (fs_exists _ _).
  - unfold verify_root_contains.
    destruct (missing_items (w_fs w) root items) eqn:E.
    + left. now apply Hnil.
    + right. reflexivity.
Qed.

(** What a settling of the root that returns has found. *)
Lemma check_root_ok_inv (game_root root : path)
    (patch : list (string * value)) (w w' : world) :
  check_root game_root patch w = (w', Ok root) ->
  w_fs w' = w_fs w /\
  (root = game_root \/ root = path_parent game_root) /\
  (forall x xs,
     dict_get "root_contains" (VList []) patch = VList (x :: xs) ->
     missing_items (w_fs w) root (map py_str (x :: xs)) = []) /\
  ((forall x xs,
      dict_get "root_contains" (VList []) patch <> VList (x :: xs)) ->
   root = game_root /\ w' = w).
Proof.
  intros E. split; [eapply fs_pure_check_root, E|].
  unfold check_root in E.
  destruct (dict_get "root_contains" (VList []) patch) as [| | | | |l|] eqn:Erc;
    try (injection E as <- <-;
         repeat split; auto; discriminate).
  destruct l as [|x xs].
  { injection E as <- <-. repeat split; auto. discriminate. }
  unfold verify_root_contains at 1 in E.
  destruct (missing_items (w_fs w) game_root (map py_str (x :: xs))) eqn:Em.
  - injection E as <- <-. split; [now left|]. split.
    + intros x' xs' [= <- <-]. exact Em.
    + intros Hno. now destruct (Hno x xs).
  - destruct (decide (path_parent game_root <> game_root)); [|discriminate].
    st_unfold. unfold print, verify_root_contains in E. cbn [w_fs printed] in E.
    destruct (missing_items (w_fs w) (path_parent game_root)
                (map py_str (x :: xs))) eqn:Ep; [|discriminate].
    injection E as <- <-. split; [now right|]. split.
    + intros x' xs' [= <- <-]. exact Ep.
    + intros Hno. now destruct (Hno x xs).
Qed.

(** X13. When the settling of the root returns, the root is the given one
    or its parent, every marker of a non-empty [root_contains] list exists
    under it, and the file system is as before; with no such list the given
    root is kept and nothing is printed. *)
Theorem check_root_post (game_root root : path)
    (patch : list (string * value)) (w w' : world) :
  check_root game_root patch w = (w', Ok root) ->
  w_fs w' = w_fs w /\
  (root = game_root \/ root = path_parent game_root) /\
  (forall x xs,
     dict_get "root_contains" (VList []) patch = VList (x :: xs) ->
     missing_items (w_fs w) root (map py_str (x :: xs)) = []) /\
  ((forall x xs,
      dict_get "root_contains" (VList []) patch <> VList (x :: xs)) ->
   root = game_root /\ w' = w).
Proof. apply check_root_ok_inv. Qed.

(** X14. [find_obj] returns the first object of the graph whose type name
    is the one asked for, and raises the not-found [RuntimeError] exactly
    when no object has that name. *)
Theorem find_obj_first (e : env) (type_name : string) :
  match find_obj e type_name with
  | Ok o =>
      exists pre post,
        env_objects e = (pre ++ o :: post)%list /\
        py_eq (obj_type_name o) (VStr type_name) = true /\
        Forall (fun o' => py_eq (obj_type_name o') (VStr type_name) = false) pre
  | Raise c msg =>
      c = RuntimeError /\
      msg = type_name
            ++ " not found (wrong file / Unity version / not legacy InputManager?)"
      /\ Forall (fun o' => py_eq (obj_type_name o') (VStr type_name) = false)
           (env_objects e)
  end.
Proof.
  unfold find_obj.
  pose proof (find_first
                (fun o => py_eq (obj_type_name o) (VStr type_name))
                (env_objects e)) as Hf.
  destruct (List.find _ (env_objects e)); [exact Hf|now repeat split].
Qed.

End RootAndGraph.

Lemma check_root_post_witness :
  check_root DemoHost.data_dir
    [("root_contains", VList [VStr "Foo.exe"])] DemoHost.world0
  = (printed DemoHost.world0 (retry_line DemoHost.data_dir),
     Ok DemoHost.game_root)
  /\ missing_items DemoHost.disk DemoHost.game_root ["Foo.exe"] = [].
Proof.
  split; [reflexivity|].
  exact (proj1 (proj2 (proj2
           (check_root_post DemoHost.data_dir DemoHost.game_root
              [("root_contains", VList [VStr "Foo.exe"])] DemoHost.world0 _
              eq_refl)))
           (VStr "Foo.exe") [] eq_refl).
Defined.

(** ** What a run writes *)

Section RunWrites.
Context `{Builtins} `{Host}.





End RunWrites.


(** ** A null value to write *)

Section NullValues.
Context `{Builtins}.

(** X19. The value to write is tested against [None] after the direction
    is resolved: when the live value is within tolerance of [original] and
    [patched] is [None], or within tolerance of [patched] only and
    [original] is [None], the call raises the unknown-state [RuntimeError]
    although the direction is known, and the field is not written. *)
Theorem null_value_rejected (axes : list loc) (i : Z) (field : string)
    (original patched : value) (axis_name : option string) (σ : store)
    (kv : list (string * value)) (cur : value) :
  0 <= i < Z.of_nat (length axes) ->
  σ (axes !!! Z.to_nat i) = VDict kv ->
  name_ok kv axis_name = true ->
  assoc field kv = Some cur ->
  (equal cur original = Ok true /\ patched = VNone)
  \/ (equal cur original = Ok false /\ equal cur patched = Ok true
      /\ original = VNone) ->
  toggle_legacy_axis_field axes i field original patched axis_name σ
  = (σ, Raise RuntimeError
          ("Unknown state for axis[" ++ str_of_Z i ++ "] "
           ++ py_repr (dict_get "m_Name" (VStr "") kv) ++ "." ++ field
           ++ ": current=" ++ py_repr cur
           ++ ", expected " ++ py_repr original
           ++ " or " ++ py_repr patched)).
Proof.
  intros Hi Hσ Hn Hf Hd. unfold toggle_legacy_axis_field.
  replace ((i <? 0) || (i >=? Z.of_nat (length axes))) with false by lia.
  unfold name_ok in Hn. apply negb_true_iff in Hn.
  assert (Hm : dict_mem field kv = true) by (unfold dict_mem; now rewrite Hf).
  assert (Hc : dict_get field VNone kv = cur) by (unfold dict_get; now rewrite Hf).
  st_unfold. rewrite Hσ. simpl. rewrite Hn, Hm, Hc. simpl.
  unfold toggle_decision. st_unfold.
  destruct Hd as [[Eo ->]|(Eo & Ep & ->)].
  - now rewrite Eo.
  - now rewrite Eo, Ep.
Qed.

End NullValues.

Lemma null_value_rejected_witness :
  toggle_legacy_axis_field Demo.axes 0 "snap" (VBool true) VNone None
    Demo.store0
  = (Demo.store0,
     Raise RuntimeError
       "Unknown state for axis[0] 'Horizontal'.snap: current=True, expected True or None").
Proof.
  exact (null_value_rejected Demo.axes 0 "snap" (VBool true) VNone None
           Demo.store0
           [("m_Name", VStr "Horizontal"); ("sensitivity", VFloat F64.one);
            ("snap", VBool true)]
           (VBool true)
           ltac:(simpl; lia) eq_refl eq_refl eq_refl
           (or_introl (conj eq_refl eq_refl))).
Defined.

(** ** The closing line *)

Section OutputFacts.
Context `{Builtins} `{Host}.














End OutputFacts.


(** ** The exit code *)

Section MainProperties.
Context `{Builtins} `{Cli}.

Lemma fail_spec (message : string) (extra : option string) (code : Z)
    (w : world) :
  snd (fail message extra code w) = code
  /\ w_fs (fst (fail message extra code w)) = w_fs w
  /\ List.last (w_out (fst (fail message extra code w))) "" = trailer.
Proof.
  unfold fail. cbn [fst snd printed w_fs w_out].
  repeat split; [now destruct (truthy_name extra)|apply last_last].
Qed.

(** X16. The exit code is 0, 1, 2 or 3.  It is 2 exactly when the patch file
    does not exist, and the file system is then as it was; it is 0 exactly
    when the run returned, 3 exactly when the run raised [PermissionError],
    so that any other failure of the run, a target file that is missing
    among them, exits with 1.  Whenever the code is not 0 the last line
    printed is the closing error line. *)
Theorem main_exit_code (game_root_arg : option string) (patch_arg : string)
    (w : world) :
  let root := game_root_from_arg game_root_arg in
  let patch_path := patch_path_from_arg patch_arg in
  let ran := run root patch_path (printed w banner) in
  let code := snd (main game_root_arg patch_arg w) in
  let w' := fst (main game_root_arg patch_arg w) in
  (code = 0 \/ code = 1 \/ code = 2 \/ code = 3)
  /\ (code = 2 <-> fs_exists (w_fs w) patch_path = false)
  /\ (code = 2 ->
      w_fs w' = w_fs w
      /\ w_out w'
         = app (w_out w)
             [banner;
              tag ++ "ERROR: Patch file not found (" ++ q patch_path ++ ").";
              trailer])
  /\ (code = 0 <->
      fs_exists (w_fs w) patch_path = true /\ snd ran = Ok tt)
  /\ (code = 0 -> w' = fst ran)
  /\ (code = 3 <->
      fs_exists (w_fs w) patch_path = true
      /\ exists msg, snd ran = Raise PermissionError msg)
  /\ (code <> 0 -> List.last (w_out w') "" = trailer).
Proof.
  cbv zeta. unfold main. cbn [printed w_fs].
  destruct (fs_exists (w_fs w) (patch_path_from_arg patch_arg)) eqn:Ex;
    cbn [negb].
  - destruct (run _ _ _) as [w1 [[]|c msg]]; cbn [fst snd];
      [|destruct c;
        match goal with
        | |- context [fail ?m ?e ?c ?w] =>
            destruct (fail_spec m e c w) as (-> & _ & Hl)
        end];
      repeat (split || intro);
      repeat match goal with
             | E : _ /\ _ |- _ => destruct E
             | E : exists _, _ |- _ => destruct E
             end;
      try discriminate; try congruence; try tauto; eauto.
  - pose proof (fail_spec
      ("Patch file not found (" ++ q (patch_path_from_arg patch_arg) ++ ").")
      None 2 (printed w banner)) as (Hc & Hfs & Hl).
    rewrite Hc.
    repeat (split || intro);
      repeat match goal with
             | E : _ /\ _ |- _ => destruct E
             | E : exists _, _ |- _ => destruct E
             end;
      try discriminate; try congruence; try tauto; eauto.
    unfold fail. cbn. now rewrite <- !app_assoc.
Qed.


End MainProperties.

(** The exit codes on the host: a patch that applies under the data folder
    of the game, through the parent; a patch file that is not there; a run
    from the root of the file system, where the root check fails twice. *)
Example main_codes :
  snd (main (Some "games/Foo/Foo_Data") "single.json" DemoHost.world0) = 0
  /\ snd (main (Some "games/Foo") "nowhere.json" DemoHost.world0) = 2
  /\ snd (main None "single.json" DemoHost.world0) = 1.
Proof. vm_compute. repeat split. Qed.
